(** * cap-static-tools: the PDF splitting task ([tasks/split_pdfs.py])

    A shallow embedding of the volume-processing pipeline and the proofs of
    its specification.  Python code that touches the local disk, the object
    store or the console is written in a state-and-exception monad over an
    explicit [World]; the object-storage client and the Python libraries
    the task calls (pypdf, zipfile, json, [int]) are interfaces whose
    operations return either a value or the exception they raise. *)

From stdpp Require Import gmap strings list fin_maps pretty infinite.

Open Scope string_scope.

(** ** Exceptions *)

(** The exceptions the pipeline can meet; all of them derive from
    Python's [Exception].  [PyExc] are those of Python and its libraries
    (pypdf, zipfile, json); [NoSuchKey] is [s3_client.exceptions.NoSuchKey]
    and [ClientError] any other error of the storage client, which only
    the client raises. *)
Inductive PyExc : Type :=
  | IndexError (msg : string)
  | FileNotFoundError (msg : string)
  | ValueError (msg : string)
  | OtherError (msg : string).

Inductive Exc : Type :=
  | NoSuchKey (msg : string)
  | ClientError (msg : string)
  | PyError (e : PyExc).
Coercion PyError : PyExc >-> Exc.

(** [str(e)] *)
Definition str_exc (e : Exc) : string :=
  match e with
  | NoSuchKey m | ClientError m => m
  | PyError (IndexError m) | PyError (FileNotFoundError m)
  | PyError (ValueError m) | PyError (OtherError m) => m
  end.

(** [isinstance(e, s3_client.exceptions.NoSuchKey)] *)
Definition is_NoSuchKey (e : Exc) : bool :=
  match e with NoSuchKey _ => true | _ => false end.

(** The outcome of a call: its value, or the exception it raises. *)
Inductive Result (E A : Type) : Type :=
  | Ok (a : A)
  | Raise (e : E).
Arguments Ok {E A} a.
Arguments Raise {E A} e.

(** ** Data model *)

(** One entry of the volumes catalog ([VolumesMetadata.json]); [v.get
    ("publication_year")] is [None] when the field is absent. *)
Record Volume : Type := {
  reporter_slug : string;
  volume_folder : string;
  publication_year : option Z
}.

(** [v.get("publication_year")] *)
Definition get_publication_year (v : Volume) : option Z := publication_year v.

(** One element of [CasesMetadata.json]; [provenance_source] is
    [case["provenance"]["source"]]. *)
Record CaseRecord : Type := {
  file_name : string;
  first_page_order : Z;
  last_page_order : Z;
  provenance_source : string
}.

(** An opened [zipfile.ZipFile], as the task uses it: the names in the
    archive's own entry order, and [open(name)] (entries are addressed by
    name; reading an entry can fail). *)
Record ZipFile : Type := {
  namelist : list string;
  zip_open : string → Result PyExc string
}.

(** The library calls of the task.  File and object contents are byte
    strings; [Page] is pypdf's page object. *)
Record PyLib (Page : Type) : Type := {
  (* [zipfile.ZipFile(io.BytesIO(body))] *)
  zip_decode : string → Result PyExc ZipFile;
  (* [json.load(f)] on the metadata entry of the archive *)
  json_load : string → Result PyExc (list CaseRecord);
  (* [json.loads(body.decode("utf-8"))] on the unpacked object *)
  json_loads_utf8 : string → Result PyExc (list CaseRecord);
  (* [json.loads(...)] on the volumes catalog *)
  json_loads_volumes : string → Result PyExc (list Volume);
  (* [int(s)] on a string *)
  py_int : string → Result PyExc Z;
  (* [PdfReader(path).pages] from the bytes of the file *)
  pdf_read : string → Result PyExc (list Page);
  (* the bytes [PdfWriter.write] produces for the pages added so far *)
  pdf_write : list Page → string
}.
Arguments zip_decode {Page} _ _.
Arguments json_load {Page} _ _.
Arguments json_loads_utf8 {Page} _ _.
Arguments json_loads_volumes {Page} _ _.
Arguments py_int {Page} _ _.
Arguments pdf_read {Page} _ _.
Arguments pdf_write {Page} _ _.

(** The object-storage client (boto3's S3 client, or the fake a test
    injects).  [get_object] stands for the call together with
    [response["Body"].read()]; [download_body] is the content
    [download_file] stores at the local path; [upload_error] tells whether
    [upload_file] of a local file to a bucket and key fails. *)
Record S3Client : Type := {
  get_object : string → string → Result Exc string;
  download_body : string → string → Result Exc string;
  upload_error : string → string → string → option Exc
}.

(** ** The world *)

Inductive Event : Type :=
  | EvPrint (msg : string)
  | EvGetObject (bucket key : string)
  | EvDownloadFile (bucket key path : string)
  | EvUploadFile (path bucket key : string)
  | EvTempFile (path : string)
  | EvUnlink (path : string).

#[global] Instance Event_eq_dec : EqDecision Event.
Proof. solve_decision. Defined.

(** The local file system, the objects written to the store (by bucket
    and key), and the events so far, oldest first. *)
Record World : Type := {
  fs : gmap string string;
  store : gmap (string * string) string;
  trace : list Event
}.

Definition with_fs (f : gmap string string → gmap string string) (w : World) : World :=
  {| fs := f (fs w); store := store w; trace := trace w |}.
Definition with_store (f : gmap (string * string) string → gmap (string * string) string)
    (w : World) : World :=
  {| fs := fs w; store := f (store w); trace := trace w |}.
Definition emit (ev : Event) (w : World) : World :=
  {| fs := fs w; store := store w; trace := trace w ++ [ev] |}.

(** ** State and exceptions *)

Definition M (A : Type) : Type := World → Result Exc A * World.

#[global] Instance M_ret : MRet M := λ A a w, (Ok a, w).
#[global] Instance M_bind : MBind M := λ A B k c w,
  match c w with
  | (Ok a, w') => k a w'
  | (Raise e, w') => (Raise e, w')
  end.
#[global] Instance M_throw : MThrow Exc M := λ A e w, (Raise e, w).

(** A call of the storage helpers, and a call of a Python library. *)
Definition lift {A} (r : Result Exc A) : M A := λ w, (r, w).
Definition lift_py {A} (r : Result PyExc A) : M A :=
  λ w, match r with
       | Ok a => (Ok a, w)
       | Raise e => (Raise (PyError e), w)
       end.

(** [try: c  except Exception as e: h e] *)
Definition try_except {A} (c : M A) (h : Exc → M A) : M A :=
  λ w, match c w with
       | (Ok a, w') => (Ok a, w')
       | (Raise e, w') => h e w'
       end.

(** [try: c  finally: f]: [f] runs on both exits, and an exception of
    [f] replaces the outcome of [c]. *)
Definition try_finally {A} (c : M A) (f : M unit) : M A :=
  λ w, match c w with
       | (r, w') => match f w' with
                    | (Ok _, w'') => (r, w'')
                    | (Raise e, w'') => (Raise e, w'')
                    end
       end.

Definition print (msg : string) : M unit := λ w, (Ok tt, emit (EvPrint msg) w).

(** ** Local files *)

(** [tempfile.NamedTemporaryFile] names its file [tmp<random>] in the
    temporary directory, retrying until the name is unused; the model
    takes the first unused name of a fixed enumeration. *)
Definition tmp_name (suffix : string) (n : nat) : string :=
  "/tmp/tmp" +:+ pretty n +:+ suffix.

Lemma string_length_app (s1 s2 : string) :
  String.length (s1 +:+ s2) = String.length s1 + String.length s2.
Proof. induction s1 as [|c s1 IH]; simpl; [done | by rewrite IH]. Qed.

Lemma string_app_inj_r (x s1 s2 : string) : s1 +:+ x = s2 +:+ x → s1 = s2.
Proof.
  revert s2. induction s1 as [|c s1 IH]; intros [|d s2] H; simpl in *.
  - done.
  - apply (f_equal String.length) in H.
    rewrite ?string_length_app in H. simpl in H.
    rewrite ?string_length_app in H. lia.
  - apply (f_equal String.length) in H.
    rewrite ?string_length_app in H. simpl in H.
    rewrite ?string_length_app in H. lia.
  - injection H as -> H. by rewrite (IH _ H).
Qed.

#[global] Instance tmp_name_inj suffix : Inj (=) (=) (tmp_name suffix).
Proof.
  intros n1 n2 H. unfold tmp_name in H.
  apply (inj (String.app "/tmp/tmp")) in H.
  apply string_app_inj_r in H. by apply (inj pretty) in H.
Qed.

Definition tmp_names (suffix : string) : Infinite string :=
  search_infinite (tmp_name suffix).

Definition fresh_tmp (suffix : string) (files : gmap string string) : string :=
  @infinite_fresh _ (tmp_names suffix) (elements (dom files)).

Lemma fresh_tmp_fresh suffix files : files !! fresh_tmp suffix files = None.
Proof.
  apply not_elem_of_dom. intros H. apply elem_of_elements in H.
  by apply (@infinite_is_fresh _ (tmp_names suffix)) in H.
Qed.

(** [with tempfile.NamedTemporaryFile(suffix=..., delete=False) as f:
    path = f.name]: an empty file under a fresh name, which survives the
    end of the [with] block. *)
Definition NamedTemporaryFile (suffix : string) : M string :=
  λ w, let path := fresh_tmp suffix (fs w) in
       (Ok path, emit (EvTempFile path) (with_fs <[path := ""]> w)).

(** [f.write(data)] through the open handle of a temporary file *)
Definition write_file (path data : string) : M unit :=
  λ w, (Ok tt, with_fs <[path := data]> w).

(** [os.unlink(path)] *)
Definition os_unlink (path : string) : M unit :=
  λ w, match fs w !! path with
       | Some _ => (Ok tt, emit (EvUnlink path) (with_fs (delete path) w))
       | None => (Raise (PyError (FileNotFoundError ("No such file or directory: " +:+ path))),
                  emit (EvUnlink path) w)
       end.

(** ** Python helpers *)

(** [s.endswith(suffix)] *)
Definition str_endswith (s suffix : string) : bool :=
  let n := String.length s in
  let k := String.length suffix in
  bool_decide (k ≤ n)%nat && bool_decide (String.substring (n - k) k s = suffix).

(** Truth value of a string, and of an optional argument whose default is
    [None]. *)
Definition str_truthy (s : string) : bool := bool_decide (s ≠ "").
Definition opt_truthy (o : option string) : bool :=
  match o with Some s => str_truthy s | None => false end.

(** [range(start, stop)] *)
Definition py_range (start stop : Z) : list Z := seqZ start (stop - start).

(** [reader.pages[index]]: pypdf's page list takes a negative index from
    the end and raises [IndexError] outside the document. *)
Definition pages_getitem {Page} (pages : list Page) (index : Z) : Result PyExc Page :=
  let len_self := Z.of_nat (length pages) in
  let index := if bool_decide (index < 0)%Z then (len_self + index)%Z else index in
  if bool_decide (index < 0 ∨ len_self ≤ index)%Z
  then Raise (IndexError "Sequence index out of range")
  else match pages !! Z.to_nat index with
       | Some p => Ok p
       | None => Raise (IndexError "Sequence index out of range")
       end.

(** ** Object store operations *)

Definition s3_get_object (s3_client : S3Client) (bucket key : string) : M string :=
  λ w, (get_object s3_client bucket key, emit (EvGetObject bucket key) w).

(** [s3_client.download_file(bucket, key, local_path)] *)
Definition s3_download_file (s3_client : S3Client) (bucket key local_path : string) : M unit :=
  λ w, match download_body s3_client bucket key with
       | Ok body => (Ok tt, emit (EvDownloadFile bucket key local_path)
                                 (with_fs <[local_path := body]> w))
       | Raise e => (Raise e, emit (EvDownloadFile bucket key local_path) w)
       end.

(** [s3_client.upload_file(path, bucket, key)] *)
Definition s3_upload_file (s3_client : S3Client) (path bucket key : string) : M unit :=
  λ w, match fs w !! path with
       | None => (Raise (PyError (FileNotFoundError ("No such file or directory: " +:+ path))),
                  emit (EvUploadFile path bucket key) w)
       | Some data =>
           match upload_error s3_client bucket key data with
           | Some e => (Raise e, emit (EvUploadFile path bucket key) w)
           | None => (Ok tt, emit (EvUploadFile path bucket key)
                                  (with_store <[(bucket, key) := data]> w))
           end
       end.

(** ** The task *)

Section split_pdfs.
Context {Page : Type}.
Variable lib : PyLib Page.
(** The two bucket names and [get_volumes_metadata], which downloads the
    volumes catalog, are imported from [tasks/helpers.py]; they are
    parameters here. *)
Variables R2_STATIC_BUCKET R2_SPLIT_PDFS_BUCKET : string.
Variable get_volumes_metadata : string → Result Exc string.

Definition READ_BUCKET : string := R2_STATIC_BUCKET.
Definition WRITE_BUCKET : string := R2_SPLIT_PDFS_BUCKET.

(** The comprehension of the year filter: [int(publication_year)] is
    evaluated once per element. *)
Fixpoint filter_year (volumes_metadata : list Volume) (publication_year : string)
    : Result PyExc (list Volume) :=
  match volumes_metadata with
  | [] => Ok []
  | v :: rest =>
      match py_int lib publication_year with
      | Raise e => Raise e
      | Ok year =>
          match filter_year rest publication_year with
          | Raise e => Raise e
          | Ok rest' =>
              Ok (if bool_decide (get_publication_year v = Some year)
                  then v :: rest' else rest')
          end
      end
  end.

(** The selectors are [None] or a string, as the command line gives
    them; the [s3_client] argument, which the function never uses, is left
    out. *)
Definition get_volumes_to_process
    (reporter volume publication_year : option string) (r2_bucket : string)
    : M (list Volume) :=
  if opt_truthy volume && bool_decide (reporter = None) then
    print "You have specified volume but no reporter. This is probably not what you want.";;
    mret []
  else
    body ← lift (get_volumes_metadata r2_bucket);
    volumes_metadata ← lift_py (json_loads_volumes lib body);
    let volumes_metadata :=
      match reporter with
      | Some r => if str_truthy r
                  then filter (λ v, reporter_slug v = r) volumes_metadata
                  else volumes_metadata
      | None => volumes_metadata
      end in
    let volumes_metadata :=
      match volume with
      | Some vol => if str_truthy vol
                    then filter (λ v, volume_folder v = vol) volumes_metadata
                    else volumes_metadata
      | None => volumes_metadata
      end in
    match publication_year with
    | Some y => if str_truthy y
                then lift_py (filter_year volumes_metadata y)
                else mret volumes_metadata
    | None => mret volumes_metadata
    end.

Definition get_cases_metadata (s3_client : S3Client) (bucket : string) (volume : Volume)
    : M (option (list CaseRecord)) :=
  let zip_key := reporter_slug volume +:+ "/" +:+ volume_folder volume +:+ ".zip" in
  let unzipped_key :=
    reporter_slug volume +:+ "/" +:+ volume_folder volume +:+ "/CasesMetadata.json" in
  try_except
    (response ← s3_get_object s3_client bucket zip_key;
     zip_ref ← lift_py (zip_decode lib response);
     let file_list := namelist zip_ref in
     let metadata_file_name :=
       find (λ name, str_endswith name "CasesMetadata.json") file_list in
     if opt_truthy metadata_file_name then
       metadata_file ← lift_py (zip_open zip_ref (default "" metadata_file_name));
       data ← lift_py (json_load lib metadata_file);
       mret (Some data)
     else
       print ("CasesMetadata.json not found in zip file " +:+ zip_key);;
       mret None)
    (λ e,
       if is_NoSuchKey e then
         try_except
           (response ← s3_get_object s3_client bucket unzipped_key;
            data ← lift_py (json_loads_utf8 lib response);
            mret (Some data))
           (λ e, print ("Error getting cases metadata for " +:+ unzipped_key
                        +:+ ": " +:+ str_exc e);;
                 mret None)
       else
         print ("Error getting cases metadata from zip " +:+ zip_key
                +:+ ": " +:+ str_exc e);;
         mret None).

Definition download_pdf (volume : Volume) (local_path : string) (s3_client : S3Client)
    : M unit :=
  let key := reporter_slug volume +:+ "/" +:+ volume_folder volume +:+ ".pdf" in
  try_except
    (s3_download_file s3_client READ_BUCKET key local_path)
    (λ e, print ("Error downloading PDF for volume " +:+ volume_folder volume
                 +:+ " of " +:+ reporter_slug volume +:+ ": " +:+ str_exc e);;
          mthrow e).

(** [PdfReader(pdf_path)] *)
Definition PdfReader (pdf_path : string) : M (list Page) :=
  λ w, match fs w !! pdf_path with
       | Some data => lift_py (pdf_read lib data) w
       | None => (Raise (PyError (FileNotFoundError ("No such file or directory: " +:+ pdf_path))), w)
       end.

(** The inner loop of [split_pdf]: [writer.add_page(reader.pages[page_num])]
    for each [page_num]. *)
Fixpoint add_pages (reader writer : list Page) (page_nums : list Z)
    : Result PyExc (list Page) :=
  match page_nums with
  | [] => Ok writer
  | page_num :: rest =>
      match pages_getitem reader page_num with
      | Ok page => add_pages reader (writer ++ [page]) rest
      | Raise e => Raise e
      end
  end.

(** The outer loop of [split_pdf], with [case_pdfs] as built so far. *)
Fixpoint split_cases (reader : list Page) (cases_metadata : list CaseRecord)
    (case_pdfs : list (string * string)) : M (list (string * string)) :=
  match cases_metadata with
  | [] => mret case_pdfs
  | case :: rest =>
      if bool_decide (provenance_source case ≠ "Fastcase") then
        let start_page := (first_page_order case - 1)%Z in
        let end_page := last_page_order case in
        writer ← lift_py (add_pages reader [] (py_range start_page end_page));
        temp_case_file ← NamedTemporaryFile ".pdf";
        write_file temp_case_file (pdf_write lib writer);;
        split_cases reader rest (case_pdfs ++ [(file_name case, temp_case_file)])
      else split_cases reader rest case_pdfs
  end.

Definition split_pdf (pdf_path : string) (cases_metadata : list CaseRecord)
    : M (list (string * string)) :=
  reader ← PdfReader pdf_path;
  split_cases reader cases_metadata [].

Fixpoint upload_case_pdfs (case_pdfs : list (string * string)) (volume : Volume)
    (s3_client : S3Client) : M unit :=
  match case_pdfs with
  | [] => mret tt
  | (case_name, case_path) :: rest =>
      let key := reporter_slug volume +:+ "/" +:+ volume_folder volume
                 +:+ "/case-pdfs/" +:+ case_name +:+ ".pdf" in
      try_finally
        (try_except
           (s3_upload_file s3_client case_path WRITE_BUCKET key;;
            print ("Uploaded " +:+ key +:+ " to " +:+ WRITE_BUCKET))
           (λ e, print ("Error uploading case PDF " +:+ case_name +:+ " for volume "
                        +:+ volume_folder volume +:+ " of " +:+ reporter_slug volume
                        +:+ ": " +:+ str_exc e)))
        (os_unlink case_path);;
      upload_case_pdfs rest volume s3_client
  end.

(** Python's [None] result is [None]; a status message is [Some].
    [not cases_metadata] holds for [None] and for the empty list. *)
Definition process_volume (volume : Volume) (s3_client : S3Client) : M (option string) :=
  cases_metadata ← get_cases_metadata s3_client READ_BUCKET volume;
  match cases_metadata with
  | None | Some [] =>
      print ("Skipping volume " +:+ volume_folder volume +:+ " due to missing metadata");;
      mret None
  | Some cases_metadata =>
      if negb (forallb (λ case, bool_decide (provenance_source case = "Fastcase"))
                       cases_metadata) then
        pdf_path ← NamedTemporaryFile ".pdf";
        download_pdf volume pdf_path s3_client;;
        try_finally
          (try_except
             (case_pdfs ← split_pdf pdf_path cases_metadata;
              print ("Split " +:+ pretty (length case_pdfs) +:+ " case PDFs");;
              (if bool_decide (length case_pdfs ≠ 0)
               then upload_case_pdfs case_pdfs volume s3_client
               else mret tt);;
              mret (Some ("Processed " +:+ pretty (length case_pdfs)
                          +:+ " cases for volume " +:+ volume_folder volume)))
             (λ e,
                print ("Error processing volume " +:+ volume_folder volume +:+ " of "
                       +:+ reporter_slug volume +:+ ": " +:+ str_exc e);;
                mret (Some ("Error processing volume " +:+ volume_folder volume
                            +:+ ": " +:+ str_exc e))))
          (os_unlink pdf_path)
      else
        print ("Skipping all-Fastcase volume " +:+ volume_folder volume);;
        mret None
  end.

End split_pdfs.

(** ** A test fixture

    A small concrete library and store on which the task runs: a PDF is
    the string of its pages, one character per page; the catalog and the
    case metadata are looked up by the text of the object. *)
Module Fixture.

Definition page : Type := Ascii.ascii.

Definition case (name : string) (first last : Z) (source : string) : CaseRecord :=
  {| file_name := name; first_page_order := first; last_page_order := last;
     provenance_source := source |}.

Definition cases_of (body : string) : Result PyExc (list CaseRecord) :=
  if bool_decide (body = "one-case") then Ok [case "0001-01" 3 5 "Harvard"]
  else if bool_decide (body = "three-cases") then
    Ok [case "0001-01" 1 2 "Harvard"; case "0003-01" 3 3 "Fastcase";
        case "0004-01" 4 5 "Harvard"]
  else if bool_decide (body = "beyond") then
    Ok [case "0001-01" 1 2 "Harvard"; case "0005-01" 5 7 "Harvard"]
  else if bool_decide (body = "all-fastcase") then
    Ok [case "0001-01" 1 2 "Fastcase"; case "0003-01" 3 5 "Fastcase"]
  else if bool_decide (body = "empty") then Ok []
  else Raise (ValueError "Expecting value: line 1 column 1 (char 0)").

Definition vol (reporter folder : string) (year : option Z) : Volume :=
  {| reporter_slug := reporter; volume_folder := folder; publication_year := year |}.

Definition catalog : list Volume :=
  [vol "a2d" "1" (Some 1990%Z); vol "a2d" "2" None; vol "us" "1" (Some 1990%Z)].

Definition int_of (s : string) : Result PyExc Z :=
  if bool_decide (s = "1990") then Ok 1990%Z
  else if bool_decide (s = "0") then Ok 0%Z
  else Raise (ValueError ("invalid literal for int() with base 10: " +:+ s)).

Definition lib : PyLib page := {|
  zip_decode body :=
    if bool_decide (body = "zip:one-case")
    then Ok {| namelist := ["a2d/1/"; "a2d/1/CasesMetadata.json"];
               zip_open name := if bool_decide (name = "a2d/1/CasesMetadata.json")
                                then Ok "one-case"
                                else Raise (OtherError "There is no item named that in the archive") |}
    else if bool_decide (body = "zip:no-metadata")
    then Ok {| namelist := ["a2d/1/"; "a2d/1/VolumeMetadata.json"];
               zip_open name := Raise (OtherError "There is no item named that in the archive") |}
    else Raise (OtherError "File is not a zip file");
  json_load := cases_of;
  json_loads_utf8 := cases_of;
  json_loads_volumes body :=
    if bool_decide (body = "catalog") then Ok catalog
    else Raise (ValueError "Expecting value: line 1 column 1 (char 0)");
  py_int := int_of;
  pdf_read body :=
    if bool_decide (body = "") then Raise (OtherError "Cannot read an empty file")
    else Ok (String.list_ascii_of_string body);
  pdf_write := String.string_of_list_ascii
|}.

Definition get_volumes_metadata (bucket : string) : Result Exc string :=
  if bool_decide (bucket = "static") then Ok "catalog"
  else Raise (NoSuchKey "The specified bucket does not exist").

(** A store without packed archives; the unpacked metadata of [a2d/1] is
    [metadata]; the PDF of [a2d/1] has five pages, that of [a2d/2] is
    missing; uploads of [0004-01] fail. *)
Definition client (metadata : string) : S3Client := {|
  get_object bucket key :=
    if bool_decide (key = "a2d/1/CasesMetadata.json") then Ok metadata
    else if bool_decide (key = "a2d/2/CasesMetadata.json") then Ok metadata
    else Raise (NoSuchKey "The specified key does not exist.");
  download_body bucket key :=
    if bool_decide (key = "a2d/1.pdf") then Ok "abcde"
    else Raise (ClientError "An error occurred (404) when calling the HeadObject operation: Not Found");
  upload_error bucket key data :=
    if bool_decide (key = "a2d/1/case-pdfs/0004-01.pdf")
    then Some (ClientError "Failed to upload") else None
|}.

Definition world0 : World := {| fs := ∅; store := ∅; trace := [] |}.

(** Two case PDFs waiting for upload, and the batch naming them. *)
Definition upload_world : World :=
  {| fs := {["/tmp/a.pdf" := "de"; "/tmp/b.pdf" := "ab"]}; store := ∅; trace := [] |}.
Definition batch : list (string * string) :=
  [("0004-01", "/tmp/a.pdf"); ("0001-01", "/tmp/b.pdf")].

End Fixture.

(** * The vocabulary of the specification *)

Open Scope list_scope.

(** ** Splitting *)

(** The non-excluded records, in input order. *)
Definition selected (cases_metadata : list CaseRecord) : list CaseRecord :=
  filter (λ c, provenance_source c ≠ "Fastcase") cases_metadata.

(** The source pages with 0-based indices [a] up to but excluding [b]. *)
Definition source_pages {Page} (pages : list Page) (a b : Z) : list Page :=
  take (Z.to_nat (b - a)) (drop (Z.to_nat a) pages).

(** The pages of a record: 0-based [first_page_order - 1] up to but
    excluding [last_page_order]. *)
Definition case_pages {Page} (pages : list Page) (c : CaseRecord) : list Page :=
  source_pages pages (first_page_order c - 1) (last_page_order c).

(** Every page index a record refers to lies inside a document of [n]
    pages. *)
Definition enough_pages (n : nat) (c : CaseRecord) : Prop :=
  ∀ i : Z, (first_page_order c - 1 ≤ i < last_page_order c)%Z → (0 ≤ i < Z.of_nat n)%Z.

(** ** Loading case metadata *)

Definition packed_key (volume : Volume) : string :=
  reporter_slug volume +:+ "/" +:+ volume_folder volume +:+ ".zip".
Definition unpacked_key (volume : Volume) : string :=
  reporter_slug volume +:+ "/" +:+ volume_folder volume +:+ "/CasesMetadata.json".

(** A result as present-or-absent. *)
Definition present {E A} (r : Result E A) : option A :=
  match r with Ok a => Some a | Raise _ => None end.

(** The first entry, in the archive's entry order, whose name ends with
    "CasesMetadata.json", parsed; absent when there is none or when
    reading or parsing it fails. *)
Definition packed_metadata {Page} (lib : PyLib Page) (archive : ZipFile)
    : option (list CaseRecord) :=
  match find (λ name, str_endswith name "CasesMetadata.json") (namelist archive) with
  | Some name =>
      match zip_open archive name with
      | Ok entry => present (json_load lib entry)
      | Raise _ => None
      end
  | None => None
  end.

(** The loader in the words of its specification: the packed archive
    first; the unpacked object if and only if the packed one does not
    exist; absent on every other failure. *)
Definition load_spec {Page} (lib : PyLib Page) (s3_client : S3Client) (bucket : string)
    (volume : Volume) : option (list CaseRecord) :=
  match get_object s3_client bucket (packed_key volume) with
  | Ok body =>
      match zip_decode lib body with
      | Ok archive => packed_metadata lib archive
      | Raise _ => None
      end
  | Raise (NoSuchKey _) =>
      match get_object s3_client bucket (unpacked_key volume) with
      | Ok body => present (json_loads_utf8 lib body)
      | Raise _ => None
      end
  | Raise _ => None
  end.

(** The storage reads the loader is to make, in order. *)
Definition load_fetches_spec (s3_client : S3Client) (bucket : string) (volume : Volume)
    : list (string * string) :=
  match get_object s3_client bucket (packed_key volume) with
  | Raise (NoSuchKey _) => [(bucket, packed_key volume); (bucket, unpacked_key volume)]
  | _ => [(bucket, packed_key volume)]
  end.

(** The [get_object] calls among some events, in order. *)
Definition fetches (events : list Event) : list (string * string) :=
  omap (λ ev, match ev with EvGetObject b k => Some (b, k) | _ => None end) events.

(** Events that touch neither the local disk nor the PDF of a volume. *)
Definition is_metadata_event (ev : Event) : Prop :=
  match ev with EvPrint _ | EvGetObject _ _ => True | _ => False end.

(** ** Uploading *)

(** [{reporter}/{volume}/case-pdfs/{case_name}.pdf] *)
Definition upload_key (volume : Volume) (case_name : string) : string :=
  reporter_slug volume +:+ "/" +:+ volume_folder volume
  +:+ "/case-pdfs/" +:+ case_name +:+ ".pdf".

(** What the upload of one item shows, given the local files at the start
    of the batch: the write to the destination key, its outcome on the
    console, and the removal of the temporary file. *)
Definition upload_events (s3_client : S3Client) (bucket : string) (volume : Volume)
    (files : gmap string string) (item : string * string) : list Event :=
  let key := upload_key volume item.1 in
  let failed (e : Exc) :=
    "Error uploading case PDF " +:+ item.1 +:+ " for volume "
    +:+ volume_folder volume +:+ " of " +:+ reporter_slug volume
    +:+ ": " +:+ str_exc e in
  [EvUploadFile item.2 bucket key;
   EvPrint match files !! item.2 with
           | Some data =>
               match upload_error s3_client bucket key data with
               | None => "Uploaded " +:+ key +:+ " to " +:+ bucket
               | Some e => failed e
               end
           | None =>
               failed (PyError (FileNotFoundError
                                  ("No such file or directory: " +:+ item.2)))
           end;
   EvUnlink item.2].

(** [{reporter}/{volume}.pdf] *)
Definition pdf_key (volume : Volume) : string :=
  reporter_slug volume +:+ "/" +:+ volume_folder volume +:+ ".pdf".

(** ** Resolving volumes *)

(** A filter applies only if its selector is given and non-empty. *)
Definition selector_holds (selector : option string) (P : string → Prop) : Prop :=
  match selector with
  | Some s => if str_truthy s then P s else True
  | None => True
  end.

#[global] Instance selector_holds_dec (selector : option string) (P : string → Prop)
  `{!∀ s, Decision (P s)} : Decision (selector_holds selector P).
Proof.
  unfold selector_holds. destruct selector as [s|]; [destruct (str_truthy s)|]; apply _.
Defined.

(** The publication year of [v] is present and equals the selector
    coerced to an integer. *)
Definition year_is {Page} (lib : PyLib Page) (v : Volume) (selector : string) : Prop :=
  match py_int lib selector with
  | Ok year => get_publication_year v = Some year
  | Raise _ => False
  end.

#[global] Instance year_is_dec {Page} (lib : PyLib Page) (v : Volume) (selector : string) :
  Decision (year_is lib v selector).
Proof. unfold year_is. destruct (py_int lib selector); apply _. Defined.

(** The conjunction of the given filters. *)
Definition selects {Page} (lib : PyLib Page) (reporter volume publication_year : option string)
    (v : Volume) : Prop :=
  selector_holds reporter (λ r, reporter_slug v = r)
  ∧ selector_holds volume (λ f, volume_folder v = f)
  ∧ selector_holds publication_year (year_is lib v).

(** The resolver in the words of its specification. *)
Definition resolve_spec {Page} (lib : PyLib Page)
    (reporter volume publication_year : option string) (catalog : list Volume)
    : list Volume :=
  filter (selects lib reporter volume publication_year) catalog.

(** * Properties *)

(** ** The splitter *)

Ltac step :=
  unfold mbind, mret, mthrow, M_bind, M_ret, M_throw, lift, lift_py, try_except,
    try_finally, print in *; simpl in *.

Section splitter.
Context {Page : Type}.
Variable lib : PyLib Page.

Lemma pages_getitem_in_range (pages : list Page) (i : Z) :
  (0 ≤ i < Z.of_nat (length pages))%Z →
  ∃ p, pages !! Z.to_nat i = Some p ∧ pages_getitem pages i = Ok p.
Proof.
  intros Hi. unfold pages_getitem. cbv zeta.
  rewrite (bool_decide_eq_false_2 (i < 0)%Z) by lia.
  rewrite bool_decide_eq_false_2 by lia.
  destruct (lookup_lt_is_Some_2 pages (Z.to_nat i)) as [p Hp]; [lia|].
  exists p. by rewrite Hp.
Qed.

Lemma pages_getitem_raises (pages : list Page) (i : Z) (e : PyExc) :
  pages_getitem pages i = Raise e → e = IndexError "Sequence index out of range".
Proof.
  unfold pages_getitem. intros H.
  repeat case_bool_decide; repeat case_match; congruence.
Qed.

Lemma pages_getitem_beyond (pages : list Page) (i : Z) :
  (Z.of_nat (length pages) ≤ i)%Z →
  pages_getitem pages i = Raise (IndexError "Sequence index out of range").
Proof.
  intros Hi. unfold pages_getitem. cbv zeta.
  rewrite (bool_decide_eq_false_2 (i < 0)%Z) by lia.
  by rewrite bool_decide_eq_true_2 by lia.
Qed.

Lemma add_pages_seqZ (reader : list Page) (k : nat) :
  ∀ (writer : list Page) (a : Z),
    (0 ≤ a)%Z → (a + Z.of_nat k ≤ Z.of_nat (length reader))%Z →
    add_pages reader writer (seqZ a (Z.of_nat k))
    = Ok (writer ++ take k (drop (Z.to_nat a) reader)).
Proof.
  induction k as [|k IH]; intros writer a Ha Hb.
  - simpl. by rewrite app_nil_r.
  - rewrite seqZ_cons by lia. simpl.
    destruct (pages_getitem_in_range reader a) as (p & Hp & ->); [lia|].
    replace (Z.pred (Z.of_nat (S k))) with (Z.of_nat k) by lia.
    rewrite IH by lia.
    rewrite (drop_S _ _ _ Hp). simpl.
    replace (Z.to_nat (Z.succ a)) with (S (Z.to_nat a)) by lia.
    by rewrite <- app_assoc.
Qed.

Lemma add_pages_range (reader : list Page) (a b : Z) :
  (∀ i : Z, (a ≤ i < b)%Z → (0 ≤ i < Z.of_nat (length reader))%Z) →
  add_pages reader [] (py_range a b) = Ok (source_pages reader a b).
Proof.
  intros H. unfold py_range, source_pages.
  destruct (decide (b ≤ a)%Z) as [Hba|Hba].
  - rewrite seqZ_nil by lia. simpl.
    by replace (Z.to_nat (b - a)) with 0 by lia.
  - pose proof (H a ltac:(lia)). pose proof (H (b - 1)%Z ltac:(lia)).
    rewrite <- (Z2Nat.id (b - a)) at 1 by lia.
    by rewrite add_pages_seqZ by lia.
Qed.

Lemma add_pages_raises (reader : list Page) (page_nums : list Z) :
  ∀ (writer : list Page) (e : PyExc),
    add_pages reader writer page_nums = Raise e →
    e = IndexError "Sequence index out of range".
Proof.
  induction page_nums as [|n page_nums IH]; intros writer e; simpl; [done|].
  destruct (pages_getitem reader n) eqn:Hn.
  - apply IH.
  - intros [= <-]. by eapply pages_getitem_raises.
Qed.

Lemma add_pages_beyond (reader : list Page) (page_nums : list Z) (i : Z) :
  i ∈ page_nums → (Z.of_nat (length reader) ≤ i)%Z →
  ∀ writer, add_pages reader writer page_nums
            = Raise (IndexError "Sequence index out of range").
Proof.
  intros Hin Hi. induction page_nums as [|n page_nums IH]; intros writer.
  - by apply elem_of_nil in Hin.
  - simpl. destruct (pages_getitem reader n) eqn:Hn.
    + apply elem_of_cons in Hin as [->|Hin].
      * rewrite pages_getitem_beyond in Hn by done. discriminate.
      * by apply IH.
    + by rewrite (pages_getitem_raises _ _ _ Hn).
Qed.

(** What one run of the outer loop does when every selected record has
    enough pages: one fresh temporary file per selected record, in
    order, holding the written pages of the record. *)
Lemma split_cases_ok (reader : list Page) (cases_metadata : list CaseRecord) :
  Forall (λ c, provenance_source c ≠ "Fastcase" → enough_pages (length reader) c)
         cases_metadata →
  ∀ (case_pdfs : list (string * string)) (w : World),
  ∃ (new : list (string * string)) (w' : World),
    split_cases lib reader cases_metadata case_pdfs w = (Ok (case_pdfs ++ new), w')
    ∧ Forall2 (λ c np, np.1 = file_name c
                       ∧ fs w' !! np.2 = Some (pdf_write lib (case_pages reader c)))
              (selected cases_metadata) new
    ∧ NoDup new.*2
    ∧ (∀ p, p ∈ new.*2 → fs w !! p = None)
    ∧ (∀ p, p ∉ new.*2 → fs w' !! p = fs w !! p)
    ∧ store w' = store w
    ∧ trace w' = trace w ++ (EvTempFile <$> new.*2).
Proof.
  induction 1 as [|c cases Hc Hcases IH]; intros case_pdfs w.
  - exists [], w. simpl. rewrite !app_nil_r.
    split; [done|]. split; [constructor|]. split; [constructor|].
    split; [by intros p Hp%elem_of_nil|]. done.
  - simpl. unfold selected. rewrite filter_cons. fold (selected cases).
    destruct (decide (provenance_source c ≠ "Fastcase")) as [Hsel|Hsel].
    + rewrite bool_decide_eq_true_2 by done. step.
      rewrite add_pages_range by (apply Hc, Hsel). fold (case_pages reader c).
      set (p := fresh_tmp ".pdf" (fs w)).
      set (w1 := with_fs <[p:=pdf_write lib (case_pages reader c)]>
                   (emit (EvTempFile p) (with_fs <[p:=""]> w))).
      destruct (IH (case_pdfs ++ [(file_name c, p)]) w1)
        as (new & w' & Hrun & Hall & Hnd & Hfresh & Hkeep & Hst & Htr).
      exists ((file_name c, p) :: new), w'.
      assert (Hp : p ∉ new.*2).
      { intros Hin. apply Hfresh in Hin. subst w1. simpl in Hin.
        by rewrite lookup_insert_eq in Hin. }
      split; [by rewrite Hrun, <- app_assoc|].
      split.
      { constructor; [|done]. simpl. split; [done|].
        rewrite (Hkeep _ Hp). subst w1. simpl. by rewrite lookup_insert_eq. }
      split; [simpl; by constructor|].
      split.
      { intros q Hq. simpl in Hq. apply elem_of_cons in Hq as [->|Hq].
        - apply fresh_tmp_fresh.
        - pose proof (Hfresh _ Hq) as Hn. subst w1. simpl in Hn.
          destruct (decide (p = q)) as [->|Hne]; [by rewrite lookup_insert_eq in Hn|].
          by rewrite !lookup_insert_ne in Hn. }
      split.
      { intros q Hq. simpl in Hq. apply not_elem_of_cons in Hq as [Hne Hq].
        rewrite (Hkeep _ Hq). subst w1. simpl. by rewrite !lookup_insert_ne. }
      split; [by rewrite Hst|].
      rewrite Htr. subst w1. simpl. by rewrite <- app_assoc.
    + rewrite bool_decide_eq_false_2 by done. apply IH.
Qed.

(** A selected record with a page index at or beyond the page count
    makes the outer loop raise, whatever came before it. *)
Lemma split_cases_beyond (reader : list Page) (cases_metadata : list CaseRecord)
    (c : CaseRecord) (i : Z) :
  c ∈ cases_metadata → provenance_source c ≠ "Fastcase" →
  (first_page_order c - 1 ≤ i < last_page_order c)%Z →
  (Z.of_nat (length reader) ≤ i)%Z →
  ∀ (case_pdfs : list (string * string)) (w : World),
  ∃ w', split_cases lib reader cases_metadata case_pdfs w
        = (Raise (PyError (IndexError "Sequence index out of range")), w').
Proof.
  intros Hin Hsel Hi Hbeyond.
  induction cases_metadata as [|c' cases IH]; intros case_pdfs w.
  - by apply elem_of_nil in Hin.
  - simpl. case_bool_decide as Hc'.
    + step.
      destruct (add_pages reader [] _) as [writer|e] eqn:Hadd.
      * apply elem_of_cons in Hin as [<-|Hin].
        -- rewrite (add_pages_beyond reader _ i) in Hadd; [done| |done].
           unfold py_range. apply elem_of_seqZ. lia.
        -- by apply IH.
      * rewrite (add_pages_raises _ _ _ _ Hadd). by eexists.
    + apply elem_of_cons in Hin as [<-|Hin]; [done|]. by apply IH.
Qed.

End splitter.

(** C1: for a source PDF with enough pages for every non-excluded record,
    [split_pdf] returns normally with exactly one [(file_name, path)] pair
    per record whose provenance source is not "Fastcase", in input order;
    the file at each path holds the document written from the source pages
    with 0-based indices [first_page_order - 1] up to but excluding
    [last_page_order], in original order; "Fastcase" records give no pair,
    and when no record qualifies the result is the empty list. *)
Theorem split_pdf_one_pair_per_selected_record {Page} (lib : PyLib Page)
    (pdf_path data : string) (pages : list Page)
    (cases_metadata : list CaseRecord) (w : World) :
  fs w !! pdf_path = Some data →
  pdf_read lib data = Ok pages →
  Forall (λ c, provenance_source c ≠ "Fastcase" → enough_pages (length pages) c)
         cases_metadata →
  ∃ (case_pdfs : list (string * string)) (w' : World),
    split_pdf lib pdf_path cases_metadata w = (Ok case_pdfs, w')
    ∧ length case_pdfs = length (selected cases_metadata)
    ∧ Forall2 (λ c np, np.1 = file_name c
                       ∧ fs w' !! np.2 = Some (pdf_write lib (case_pages pages c)))
              (selected cases_metadata) case_pdfs
    ∧ NoDup case_pdfs.*2
    ∧ (selected cases_metadata = [] → case_pdfs = []).
Proof.
  intros Hfile Hread Hall.
  destruct (split_cases_ok lib pages cases_metadata Hall [] w)
    as (new & w' & Hrun & Hpairs & Hnd & _).
  exists new, w'. unfold split_pdf, PdfReader. step. rewrite Hfile, Hread.
  split; [done|].
  split; [symmetry; by eapply Forall2_length|].
  split; [done|]. split; [done|].
  intros Hnone. rewrite Hnone in Hpairs. by apply Forall2_nil_inv_l in Hpairs.
Qed.

Lemma split_pdf_one_pair_per_selected_record_witness :
  ∃ (case_pdfs : list (string * string)) (w' : World),
    split_pdf Fixture.lib "/vol.pdf"
      [Fixture.case "0001-01" 1 2 "Harvard"; Fixture.case "0003-01" 3 3 "Fastcase";
       Fixture.case "0004-01" 4 5 "Harvard"]
      (with_fs <["/vol.pdf" := "abcde"]> Fixture.world0)
    = (Ok case_pdfs, w')
    ∧ length case_pdfs
      = length (selected [Fixture.case "0001-01" 1 2 "Harvard";
                          Fixture.case "0003-01" 3 3 "Fastcase";
                          Fixture.case "0004-01" 4 5 "Harvard"])
    ∧ Forall2 (λ c np, np.1 = file_name c
                       ∧ fs w' !! np.2
                         = Some (pdf_write Fixture.lib
                                   (case_pages (String.list_ascii_of_string "abcde") c)))
              (selected [Fixture.case "0001-01" 1 2 "Harvard";
                         Fixture.case "0003-01" 3 3 "Fastcase";
                         Fixture.case "0004-01" 4 5 "Harvard"])
              case_pdfs
    ∧ NoDup case_pdfs.*2
    ∧ (selected [Fixture.case "0001-01" 1 2 "Harvard";
                 Fixture.case "0003-01" 3 3 "Fastcase";
                 Fixture.case "0004-01" 4 5 "Harvard"] = [] → case_pdfs = []).
Proof.
  apply (split_pdf_one_pair_per_selected_record Fixture.lib "/vol.pdf" "abcde").
  - reflexivity.
  - reflexivity.
  - constructor; [|constructor; [|constructor; [|constructor]]];
      intros _ i; unfold Fixture.case; simpl; lia.
Defined.

(** C2 as stated fails: on a five-page PDF, the record with
    [first_page_order = 3] and [last_page_order = 5] yields a document of
    three pages, not two. *)
Lemma split_pdf_3_to_5_counterexample :
  ∃ (temp doc : string) (w' : World),
    split_pdf Fixture.lib "/vol.pdf" [Fixture.case "0001-01" 3 5 "Harvard"]
      (with_fs <["/vol.pdf" := "abcde"]> Fixture.world0)
    = (Ok [("0001-01", temp)], w')
    ∧ fs w' !! temp = Some doc
    ∧ pdf_read Fixture.lib doc = Ok (String.list_ascii_of_string "cde")
    ∧ length (String.list_ascii_of_string "cde") = 3%nat
    ∧ pdf_read Fixture.lib doc ≠ Ok (String.list_ascii_of_string "cd").
Proof.
  eexists "/tmp/tmp0.pdf", "cde", _.
  split; [vm_compute; reflexivity|].
  split; [vm_compute; reflexivity|].
  split; [reflexivity|]. split; [reflexivity|]. vm_compute. discriminate.
Qed.

(** C2 (amended): for a source PDF with at least five pages and a single
    non-excluded record with [first_page_order = 3] and
    [last_page_order = 5], the produced case PDF is written from exactly
    three pages, the source's 1-based pages 3, 4 and 5, in original
    order. *)
Theorem split_pdf_3_to_5_three_pages {Page} (lib : PyLib Page)
    (pdf_path data : string) (pages : list Page) (c : CaseRecord) (w : World) :
  fs w !! pdf_path = Some data →
  pdf_read lib data = Ok pages →
  (5 ≤ length pages)%nat →
  provenance_source c ≠ "Fastcase" →
  first_page_order c = 3%Z → last_page_order c = 5%Z →
  ∃ (p3 p4 p5 : Page) (temp : string) (w' : World),
    pages !! 2%nat = Some p3 ∧ pages !! 3%nat = Some p4 ∧ pages !! 4%nat = Some p5
    ∧ split_pdf lib pdf_path [c] w = (Ok [(file_name c, temp)], w')
    ∧ fs w' !! temp = Some (pdf_write lib [p3; p4; p5]).
Proof.
  intros Hfile Hread Hlen Hsel Hfirst Hlast.
  assert (Hall : Forall (λ c, provenance_source c ≠ "Fastcase"
                              → enough_pages (length pages) c) [c]).
  { constructor; [|constructor]. intros _ i. rewrite Hfirst, Hlast. lia. }
  destruct (split_cases_ok lib pages [c] Hall [] w)
    as (new & w' & Hrun & Hpairs & _).
  unfold selected in Hpairs. rewrite filter_cons, decide_True in Hpairs by done.
  rewrite filter_nil in Hpairs.
  apply Forall2_cons_inv_l in Hpairs as ([name temp] & rest & [Hname Hdoc] & Hrest & ->).
  apply Forall2_nil_inv_l in Hrest as ->. simpl in Hname, Hdoc. subst name.
  unfold case_pages, source_pages in Hdoc. rewrite Hfirst, Hlast in Hdoc.
  destruct pages as [|p1 [|p2 [|p3 [|p4 [|p5 rest]]]]]; simpl in Hlen; try lia.
  exists p3, p4, p5, temp, w'.
  repeat split; try done.
  unfold split_pdf, PdfReader. step. by rewrite Hfile, Hread.
Qed.

Lemma split_pdf_3_to_5_three_pages_witness :
  ∃ (p3 p4 p5 : Ascii.ascii) (temp : string) (w' : World),
    String.list_ascii_of_string "abcdefg" !! 2%nat = Some p3
    ∧ String.list_ascii_of_string "abcdefg" !! 3%nat = Some p4
    ∧ String.list_ascii_of_string "abcdefg" !! 4%nat = Some p5
    ∧ split_pdf Fixture.lib "/vol.pdf" [Fixture.case "0001-01" 3 5 "Harvard"]
        (with_fs <["/vol.pdf" := "abcdefg"]> Fixture.world0)
      = (Ok [(file_name (Fixture.case "0001-01" 3 5 "Harvard"), temp)], w')
    ∧ fs w' !! temp = Some (pdf_write Fixture.lib [p3; p4; p5]).
Proof.
  apply (split_pdf_3_to_5_three_pages Fixture.lib "/vol.pdf" "abcdefg").
  - reflexivity.
  - reflexivity.
  - simpl. lia.
  - discriminate.
  - reflexivity.
  - reflexivity.
Defined.

(** C9: when a non-excluded record refers to a page index at or beyond the
    page count of the source document, [split_pdf] raises the index error
    of the page lookup: it is not handled inside [split_pdf] and reaches
    the caller. *)
Theorem split_pdf_page_beyond_document_raises {Page} (lib : PyLib Page)
    (pdf_path data : string) (pages : list Page)
    (cases_metadata : list CaseRecord) (c : CaseRecord) (i : Z) (w : World) :
  fs w !! pdf_path = Some data →
  pdf_read lib data = Ok pages →
  c ∈ cases_metadata →
  provenance_source c ≠ "Fastcase" →
  (first_page_order c - 1 ≤ i < last_page_order c)%Z →
  (Z.of_nat (length pages) ≤ i)%Z →
  ∃ w', split_pdf lib pdf_path cases_metadata w
        = (Raise (PyError (IndexError "Sequence index out of range")), w').
Proof.
  intros Hfile Hread Hin Hsel Hi Hbeyond.
  destruct (split_cases_beyond lib pages cases_metadata c i Hin Hsel Hi Hbeyond [] w)
    as [w' Hrun].
  exists w'. unfold split_pdf, PdfReader. step. by rewrite Hfile, Hread.
Qed.

Lemma split_pdf_page_beyond_document_raises_witness :
  ∃ w', split_pdf Fixture.lib "/vol.pdf"
          [Fixture.case "0001-01" 1 2 "Harvard"; Fixture.case "0005-01" 5 7 "Harvard"]
          (with_fs <["/vol.pdf" := "abcde"]> Fixture.world0)
        = (Raise (PyError (IndexError "Sequence index out of range")), w').
Proof.
  apply (split_pdf_page_beyond_document_raises Fixture.lib "/vol.pdf" "abcde"
           (String.list_ascii_of_string "abcde") _
           (Fixture.case "0005-01" 5 7 "Harvard") 5%Z).
  - reflexivity.
  - reflexivity.
  - set_solver.
  - discriminate.
  - simpl. lia.
  - simpl. lia.
Defined.

(** ** The case metadata loader *)

Lemma str_endswith_truthy (name : string) :
  str_endswith name "CasesMetadata.json" = true → str_truthy name = true.
Proof.
  unfold str_endswith, str_truthy. intros [Hlen _]%andb_true_iff.
  apply bool_decide_eq_true in Hlen. apply bool_decide_eq_true_2.
  intros ->. simpl in Hlen. lia.
Qed.

Lemma find_endswith_truthy (names : list string) :
  opt_truthy (find (λ name, str_endswith name "CasesMetadata.json") names)
  = match find (λ name, str_endswith name "CasesMetadata.json") names with
    | Some _ => true
    | None => false
    end.
Proof.
  destruct (find _ names) as [name|] eqn:Hfind; simpl; [|done].
  apply find_some in Hfind as [_ Hend]. by apply str_endswith_truthy.
Qed.

(** Closes a branch of the loader: the events are read off the final
    trace. *)
Ltac loader_done :=
  eexists; split;
    [unfold emit; simpl; rewrite <- ?app_assoc; reflexivity|];
  split; [reflexivity | repeat constructor].

Section loader.
Context {Page : Type}.
Variable lib : PyLib Page.

Lemma get_cases_metadata_run (s3_client : S3Client) (bucket : string) (volume : Volume)
    (w : World) :
  ∃ events,
    get_cases_metadata lib s3_client bucket volume w
    = (Ok (load_spec lib s3_client bucket volume),
       {| fs := fs w; store := store w; trace := trace w ++ events |})
    ∧ fetches events = load_fetches_spec s3_client bucket volume
    ∧ Forall is_metadata_event events.
Proof.
  unfold get_cases_metadata, load_spec, load_fetches_spec, s3_get_object.
  fold (packed_key volume). fold (unpacked_key volume). step.
  destruct (get_object s3_client bucket (packed_key volume)) as [body|e] eqn:Hzip.
  - destruct (zip_decode lib body) as [archive|e]; simpl; [|loader_done].
    unfold packed_metadata. rewrite find_endswith_truthy.
    destruct (find _ (namelist archive)) as [name|]; simpl; [|loader_done].
    destruct (zip_open archive name) as [entry|e]; simpl; [|loader_done].
    destruct (json_load lib entry) as [data|e]; simpl; loader_done.
  - destruct e; simpl; try loader_done.
    destruct (get_object s3_client bucket (unpacked_key volume)) as [body|e]; simpl;
      [|loader_done].
    destruct (json_loads_utf8 lib body) as [data|e]; simpl; loader_done.
Qed.

End loader.

(** C5: the loader never raises; it reads the packed key
    [{reporter}/{volume}.zip] first and returns the parsed first entry
    whose name ends with "CasesMetadata.json"; it reads the unpacked key
    [{reporter}/{volume}/CasesMetadata.json] if and only if the packed
    object does not exist; an archive without a matching entry gives
    absent without the fallback, and so does every other storage or parse
    failure on either path. *)
Theorem get_cases_metadata_packed_then_unpacked {Page} (lib : PyLib Page)
    (s3_client : S3Client) (bucket : string) (volume : Volume) (w : World) :
  ∃ (events : list Event) (w' : World),
    get_cases_metadata lib s3_client bucket volume w
    = (Ok (load_spec lib s3_client bucket volume), w')
    ∧ trace w' = trace w ++ events
    ∧ fetches events = load_fetches_spec s3_client bucket volume
    ∧ ((bucket, unpacked_key volume) ∈ fetches events
       ↔ ∃ msg, get_object s3_client bucket (packed_key volume) = Raise (NoSuchKey msg)).
Proof.
  destruct (get_cases_metadata_run lib s3_client bucket volume w)
    as (events & Hrun & Hfetch & _).
  eexists events, _. split; [exact Hrun|]. split; [done|]. split; [done|].
  rewrite Hfetch. unfold load_fetches_spec.
  assert (Hne : (bucket, unpacked_key volume) ≠ (bucket, packed_key volume)).
  { intros [= H]. unfold unpacked_key, packed_key in H.
    apply (inj (String.app _)) in H. apply (inj (String.app "/")) in H.
    apply (inj (String.app _)) in H. discriminate. }
  destruct (get_object s3_client bucket (packed_key volume)) as [body|[m|m|e]];
    (split; [intros Hin | intros [m' Heq]]); try discriminate.
  - apply elem_of_cons in Hin as [Hin|Hin%elem_of_nil]; done.
  - by exists m.
  - apply elem_of_cons. right. apply elem_of_cons. by left.
  - apply elem_of_cons in Hin as [Hin|Hin%elem_of_nil]; done.
  - apply elem_of_cons in Hin as [Hin|Hin%elem_of_nil]; done.
Qed.

(** ** The upload stage *)

Section upload.
Variable R2_SPLIT_PDFS_BUCKET : string.
Variables (volume : Volume) (s3_client : S3Client).

Local Abbreviation bucket := (WRITE_BUCKET R2_SPLIT_PDFS_BUCKET).

(** One turn of the loop on an item whose temporary file exists. *)
Lemma upload_one (case_name case_path data : string) (w : World) :
  fs w !! case_path = Some data →
  ∃ w1,
    try_finally
      (try_except
         (s3_upload_file s3_client case_path bucket (upload_key volume case_name);;
          print ("Uploaded " +:+ upload_key volume case_name +:+ " to " +:+ bucket))
         (λ e, print ("Error uploading case PDF " +:+ case_name +:+ " for volume "
                      +:+ volume_folder volume +:+ " of " +:+ reporter_slug volume
                      +:+ ": " +:+ str_exc e)))
      (os_unlink case_path) w
    = (Ok tt, w1)
    ∧ fs w1 = delete case_path (fs w)
    ∧ trace w1 = trace w ++ upload_events s3_client bucket volume (fs w)
                              (case_name, case_path)
    ∧ (∀ k, is_Some (store w !! k) → is_Some (store w1 !! k))
    ∧ (upload_error s3_client bucket (upload_key volume case_name) data = None →
       store w1 !! (bucket, upload_key volume case_name) = Some data).
Proof.
  intros Hfile. unfold s3_upload_file, os_unlink, upload_events. step.
  rewrite Hfile.
  destruct (upload_error s3_client bucket _ data) as [e|] eqn:Herr; simpl;
    rewrite Hfile; eexists; (split; [reflexivity|]); simpl;
    (split; [done|]); rewrite <- ?app_assoc; (split; [done|]).
  - by split.
  - split; [|intros _; by rewrite lookup_insert_eq].
    intros k Hk. destruct (decide ((bucket, upload_key volume case_name) = k)) as [<-|Hne].
    + rewrite lookup_insert_eq. by eexists.
    + by rewrite lookup_insert_ne.
Qed.

Lemma upload_events_ext (files files' : gmap string string) (items : list (string * string)) :
  (∀ p, p ∈ items.*2 → files' !! p = files !! p) →
  flat_map (upload_events s3_client bucket volume files') items
  = flat_map (upload_events s3_client bucket volume files) items.
Proof.
  induction items as [|[name p] items IH]; intros Hsame; simpl; [done|].
  rewrite IH by (intros q Hq; apply Hsame; simpl; by apply elem_of_cons; right).
  unfold upload_events. simpl. rewrite (Hsame p); [done|]. simpl. by apply elem_of_cons; left.
Qed.

Lemma upload_case_pdfs_run (case_pdfs : list (string * string)) :
  NoDup case_pdfs.*2 →
  ∀ w, (∀ p, p ∈ case_pdfs.*2 → is_Some (fs w !! p)) →
  ∃ w',
    upload_case_pdfs R2_SPLIT_PDFS_BUCKET case_pdfs volume s3_client w
    = (Ok tt, w')
    ∧ trace w' = trace w ++ flat_map (upload_events s3_client bucket volume (fs w)) case_pdfs
    ∧ (∀ p, fs w' !! p = if decide (p ∈ case_pdfs.*2) then None else fs w !! p)
    ∧ (∀ k, is_Some (store w !! k) → is_Some (store w' !! k))
    ∧ (∀ name p data, (name, p) ∈ case_pdfs → fs w !! p = Some data →
         upload_error s3_client bucket (upload_key volume name) data = None →
         is_Some (store w' !! (bucket, upload_key volume name))).
Proof.
  induction case_pdfs as [|[name p] items IH]; intros Hnd w Hfiles.
  - exists w. simpl. rewrite app_nil_r. repeat split; try done.
    intros ??? Hin. by apply elem_of_nil in Hin.
  - simpl in Hnd. apply NoDup_cons in Hnd as [Hp Hnd].
    destruct (Hfiles p) as [data Hdata]; [simpl; by apply elem_of_cons; left|].
    destruct (upload_one name p data w Hdata) as (w1 & Hrun1 & Hfs1 & Htr1 & Hst1 & Hup1).
    destruct (IH Hnd w1) as (w' & Hrun & Htr & Hfs & Hst & Hup).
    { intros q Hq. rewrite Hfs1, lookup_delete_ne by (by intros ->).
      apply Hfiles. simpl. by apply elem_of_cons; right. }
    exists w'. cbn [upload_case_pdfs]. fold (upload_key volume name).
    unfold mbind at 1. unfold M_bind at 1. rewrite Hrun1. cbv beta iota.
    split; [exact Hrun|].
    split.
    { rewrite Htr, Htr1. cbn [flat_map]. rewrite <- app_assoc. do 2 f_equal.
      apply upload_events_ext. intros q Hq.
      rewrite Hfs1. apply lookup_delete_ne. by intros ->. }
    split.
    { intros q. rewrite Hfs, Hfs1. simpl.
      destruct (decide (q ∈ items.*2)) as [Hq|Hq].
      - rewrite decide_True; [done|]. by apply elem_of_cons; right.
      - destruct (decide (q = p)) as [->|Hne].
        + rewrite decide_True by (by apply elem_of_cons; left).
          apply lookup_delete_eq.
        + rewrite decide_False by (by intros [?|?]%elem_of_cons).
          by apply lookup_delete_ne. }
    split; [intros k Hk; by apply Hst, Hst1|].
    intros name' q data' Hin Hq Herr.
    apply elem_of_cons in Hin as [[= -> ->]|Hin].
    + apply Hst. rewrite Hdata in Hq. injection Hq as <-. rewrite (Hup1 Herr). by eexists.
    + apply (Hup name' q data' Hin); [|done].
      rewrite Hfs1, lookup_delete_ne; [done|].
      intros <-. apply Hp. apply list_elem_of_fmap. by exists (name', p).
Qed.

End upload.

(** C8: for a batch whose items each have their own existing temporary
    file, [upload_case_pdfs] returns normally; for every item, in order,
    it attempts the write to [{reporter}/{volume}/case-pdfs/{case_name}.pdf],
    reports success or the caught error, and removes the item's temporary
    file before the next item starts; afterwards no temporary file of the
    batch is left, and every item whose write did not fail is in the
    store. *)
Theorem upload_case_pdfs_attempts_all_and_cleans_each
    (R2_SPLIT_PDFS_BUCKET : string) (volume : Volume) (s3_client : S3Client)
    (case_pdfs : list (string * string)) (w : World) :
  NoDup case_pdfs.*2 →
  (∀ p, p ∈ case_pdfs.*2 → is_Some (fs w !! p)) →
  ∃ w',
    upload_case_pdfs R2_SPLIT_PDFS_BUCKET case_pdfs volume s3_client w = (Ok tt, w')
    ∧ trace w' = trace w ++ flat_map (upload_events s3_client
                                        (WRITE_BUCKET R2_SPLIT_PDFS_BUCKET) volume (fs w))
                                     case_pdfs
    ∧ (∀ p, p ∈ case_pdfs.*2 → fs w' !! p = None)
    ∧ (∀ name p data,
         (name, p) ∈ case_pdfs → fs w !! p = Some data →
         upload_error s3_client (WRITE_BUCKET R2_SPLIT_PDFS_BUCKET)
                      (upload_key volume name) data = None →
         is_Some (store w' !! (WRITE_BUCKET R2_SPLIT_PDFS_BUCKET, upload_key volume name))).
Proof.
  intros Hnd Hfiles.
  destruct (upload_case_pdfs_run R2_SPLIT_PDFS_BUCKET volume s3_client case_pdfs Hnd w Hfiles)
    as (w' & Hrun & Htr & Hfs & _ & Hup).
  exists w'. split; [done|]. split; [done|]. split; [|done].
  intros p Hp. rewrite Hfs. by rewrite decide_True.
Qed.

Lemma upload_case_pdfs_attempts_all_and_cleans_each_witness :
  ∃ w',
    upload_case_pdfs "split" Fixture.batch (Fixture.vol "a2d" "1" None)
      (Fixture.client "") Fixture.upload_world
    = (Ok tt, w')
    ∧ trace w'
      = trace Fixture.upload_world
        ++ flat_map (upload_events (Fixture.client "") (WRITE_BUCKET "split")
                       (Fixture.vol "a2d" "1" None) (fs Fixture.upload_world))
                    Fixture.batch
    ∧ (∀ p, p ∈ Fixture.batch.*2 → fs w' !! p = None)
    ∧ (∀ name p data,
         (name, p) ∈ Fixture.batch → fs Fixture.upload_world !! p = Some data →
         upload_error (Fixture.client "") (WRITE_BUCKET "split")
                      (upload_key (Fixture.vol "a2d" "1" None) name) data = None →
         is_Some (store w' !! (WRITE_BUCKET "split",
                               upload_key (Fixture.vol "a2d" "1" None) name))).
Proof.
  apply (upload_case_pdfs_attempts_all_and_cleans_each "split"
           (Fixture.vol "a2d" "1" None) (Fixture.client "")
           Fixture.batch Fixture.upload_world).
  - apply (bool_decide_unpack _). vm_compute. exact I.
  - intros p Hp. unfold Fixture.batch in Hp. simpl in Hp.
    apply elem_of_cons in Hp as [->|Hp]; [by eexists|].
    apply elem_of_cons in Hp as [->|Hp%elem_of_nil]; [by eexists|done].
Defined.

(** ** The volume processor *)

Lemma forallb_Fastcase (cases_metadata : list CaseRecord) :
  forallb (λ case, bool_decide (provenance_source case = "Fastcase")) cases_metadata = true
  ↔ Forall (λ c, provenance_source c = "Fastcase") cases_metadata.
Proof.
  induction cases_metadata as [|c cases IH]; simpl.
  - split; [constructor|done].
  - rewrite andb_true_iff, IH, bool_decide_eq_true. split.
    + intros [??]. by constructor.
    + by intros [??]%Forall_cons.
Qed.

(** C7: when the metadata of a volume is a non-empty set in which every
    record has provenance source "Fastcase", [process_volume] returns
    [None] after reporting "Skipping all-Fastcase volume ..."; the local
    files and the written objects are unchanged, and apart from that
    report the only events are those of the metadata loader (reads of the
    metadata keys and console output): no download, no temporary file. *)
Theorem process_volume_all_fastcase_skips {Page} (lib : PyLib Page)
    (R2_STATIC_BUCKET R2_SPLIT_PDFS_BUCKET : string) (volume : Volume)
    (s3_client : S3Client) (cases_metadata : list CaseRecord) (w w1 : World) :
  get_cases_metadata lib s3_client (READ_BUCKET R2_STATIC_BUCKET) volume w
  = (Ok (Some cases_metadata), w1) →
  cases_metadata ≠ [] →
  Forall (λ c, provenance_source c = "Fastcase") cases_metadata →
  process_volume lib R2_STATIC_BUCKET R2_SPLIT_PDFS_BUCKET volume s3_client w
  = (Ok None, emit (EvPrint ("Skipping all-Fastcase volume " +:+ volume_folder volume)) w1)
  ∧ fs w1 = fs w
  ∧ store w1 = store w
  ∧ ∃ events, trace w1 = trace w ++ events ∧ Forall is_metadata_event events.
Proof.
  intros Hload Hne Hall.
  destruct (get_cases_metadata_run lib s3_client (READ_BUCKET R2_STATIC_BUCKET) volume w)
    as (events & Hrun & _ & Hev).
  rewrite Hload in Hrun. injection Hrun as _ ->.
  split; [|split; [done|split; [done|by exists events]]].
  unfold process_volume. unfold mbind at 1. unfold M_bind at 1. rewrite Hload.
  destruct cases_metadata as [|c cases]; [done|].
  apply forallb_Fastcase in Hall. rewrite Hall. reflexivity.
Qed.

Lemma process_volume_all_fastcase_skips_witness :
  process_volume Fixture.lib "static" "split" (Fixture.vol "a2d" "1" None)
    (Fixture.client "all-fastcase") Fixture.world0
  = (Ok None,
     emit (EvPrint ("Skipping all-Fastcase volume "
                    +:+ volume_folder (Fixture.vol "a2d" "1" None)))
       {| fs := ∅; store := ∅;
          trace := [EvGetObject "static" "a2d/1.zip";
                    EvGetObject "static" "a2d/1/CasesMetadata.json"] |})
  ∧ (∅ : gmap string string) = fs Fixture.world0
  ∧ (∅ : gmap (string * string) string) = store Fixture.world0
  ∧ ∃ events,
      [EvGetObject "static" "a2d/1.zip"; EvGetObject "static" "a2d/1/CasesMetadata.json"]
      = trace Fixture.world0 ++ events
      ∧ Forall is_metadata_event events.
Proof.
  apply (process_volume_all_fastcase_skips Fixture.lib "static" "split"
           (Fixture.vol "a2d" "1" None) (Fixture.client "all-fastcase")
           [Fixture.case "0001-01" 1 2 "Fastcase"; Fixture.case "0003-01" 3 5 "Fastcase"]
           Fixture.world0
           {| fs := ∅; store := ∅;
              trace := [EvGetObject "static" "a2d/1.zip";
                        EvGetObject "static" "a2d/1/CasesMetadata.json"] |}).
  - vm_compute. reflexivity.
  - discriminate.
  - repeat constructor.
Defined.

(** C10: when the metadata of a volume resolves to the empty list,
    [process_volume] does what it does for absent metadata: it reports
    "Skipping volume ... due to missing metadata" and returns [None], not
    a zero-count summary; nothing is downloaded or split (the local files
    and the written objects are unchanged, and the loader's events are the
    only other ones). *)
Theorem process_volume_empty_metadata_like_absent {Page} (lib : PyLib Page)
    (R2_STATIC_BUCKET R2_SPLIT_PDFS_BUCKET : string) (volume : Volume)
    (s3_client : S3Client) (w w1 : World) :
  get_cases_metadata lib s3_client (READ_BUCKET R2_STATIC_BUCKET) volume w
  = (Ok (Some []), w1) →
  process_volume lib R2_STATIC_BUCKET R2_SPLIT_PDFS_BUCKET volume s3_client w
  = (Ok None,
     emit (EvPrint ("Skipping volume " +:+ volume_folder volume
                    +:+ " due to missing metadata")) w1)
  ∧ (∀ wa wa1,
       get_cases_metadata lib s3_client (READ_BUCKET R2_STATIC_BUCKET) volume wa
       = (Ok None, wa1) →
       process_volume lib R2_STATIC_BUCKET R2_SPLIT_PDFS_BUCKET volume s3_client wa
       = (Ok None,
          emit (EvPrint ("Skipping volume " +:+ volume_folder volume
                         +:+ " due to missing metadata")) wa1))
  ∧ fs w1 = fs w
  ∧ store w1 = store w
  ∧ ∃ events, trace w1 = trace w ++ events ∧ Forall is_metadata_event events.
Proof.
  intros Hload.
  destruct (get_cases_metadata_run lib s3_client (READ_BUCKET R2_STATIC_BUCKET) volume w)
    as (events & Hrun & _ & Hev).
  rewrite Hload in Hrun. injection Hrun as _ ->.
  split; [|split; [|split; [done|split; [done|by exists events]]]].
  - unfold process_volume. unfold mbind at 1. unfold M_bind at 1. by rewrite Hload.
  - intros wa wa1 Ha.
    unfold process_volume. unfold mbind at 1. unfold M_bind at 1. by rewrite Ha.
Qed.

Lemma process_volume_empty_metadata_like_absent_witness :
  process_volume Fixture.lib "static" "split" (Fixture.vol "a2d" "1" None)
    (Fixture.client "empty") Fixture.world0
  = (Ok None,
     emit (EvPrint ("Skipping volume " +:+ volume_folder (Fixture.vol "a2d" "1" None)
                    +:+ " due to missing metadata"))
       {| fs := ∅; store := ∅;
          trace := [EvGetObject "static" "a2d/1.zip";
                    EvGetObject "static" "a2d/1/CasesMetadata.json"] |})
  ∧ (∀ wa wa1,
       get_cases_metadata Fixture.lib (Fixture.client "empty") (READ_BUCKET "static")
         (Fixture.vol "a2d" "1" None) wa
       = (Ok None, wa1) →
       process_volume Fixture.lib "static" "split" (Fixture.vol "a2d" "1" None)
         (Fixture.client "empty") wa
       = (Ok None,
          emit (EvPrint ("Skipping volume " +:+ volume_folder (Fixture.vol "a2d" "1" None)
                         +:+ " due to missing metadata")) wa1))
  ∧ (∅ : gmap string string) = fs Fixture.world0
  ∧ (∅ : gmap (string * string) string) = store Fixture.world0
  ∧ ∃ events,
      [EvGetObject "static" "a2d/1.zip"; EvGetObject "static" "a2d/1/CasesMetadata.json"]
      = trace Fixture.world0 ++ events
      ∧ Forall is_metadata_event events.
Proof.
  apply (process_volume_empty_metadata_like_absent Fixture.lib "static" "split"
           (Fixture.vol "a2d" "1" None) (Fixture.client "empty") Fixture.world0
           {| fs := ∅; store := ∅;
              trace := [EvGetObject "static" "a2d/1.zip";
                        EvGetObject "static" "a2d/1/CasesMetadata.json"] |}).
  vm_compute. reflexivity.
Defined.

(** The run of [process_volume] on a volume with a record to split whose
    PDF cannot be downloaded: [download_pdf] is called before the [try]
    block is entered, so neither its [except] nor its [finally] clause
    applies. *)
Lemma process_volume_download_failure_run {Page} (lib : PyLib Page)
    (R2_STATIC_BUCKET R2_SPLIT_PDFS_BUCKET : string) (volume : Volume)
    (s3_client : S3Client) (cases_metadata : list CaseRecord) (e : Exc) (w w1 : World) :
  get_cases_metadata lib s3_client (READ_BUCKET R2_STATIC_BUCKET) volume w
  = (Ok (Some cases_metadata), w1) →
  ¬ Forall (λ c, provenance_source c = "Fastcase") cases_metadata →
  download_body s3_client (READ_BUCKET R2_STATIC_BUCKET) (pdf_key volume) = Raise e →
  process_volume lib R2_STATIC_BUCKET R2_SPLIT_PDFS_BUCKET volume s3_client w
  = (Raise e,
     {| fs := <[fresh_tmp ".pdf" (fs w1) := ""]> (fs w1);
        store := store w1;
        trace := trace w1
                 ++ [EvTempFile (fresh_tmp ".pdf" (fs w1));
                     EvDownloadFile (READ_BUCKET R2_STATIC_BUCKET) (pdf_key volume)
                                    (fresh_tmp ".pdf" (fs w1));
                     EvPrint ("Error downloading PDF for volume " +:+ volume_folder volume
                              +:+ " of " +:+ reporter_slug volume +:+ ": " +:+ str_exc e)] |}).
Proof.
  intros Hload Hsome Hdown.
  unfold process_volume. unfold mbind at 1. unfold M_bind at 1. rewrite Hload.
  destruct cases_metadata as [|c cases]; [by destruct Hsome|].
  destruct (forallb _ (c :: cases)) eqn:Hall.
  { apply forallb_Fastcase in Hall. by destruct Hsome. }
  unfold download_pdf, s3_download_file, NamedTemporaryFile. fold (pdf_key volume).
  step. rewrite Hdown. unfold emit, with_fs. simpl. by rewrite <- !app_assoc.
Qed.

(** C3 (the code departs from it): on a volume that has a record to split
    and whose PDF download fails with [e], [process_volume] does not
    return an error status: it raises [e] to its caller. *)
Theorem process_volume_download_failure_propagates {Page} (lib : PyLib Page)
    (R2_STATIC_BUCKET R2_SPLIT_PDFS_BUCKET : string) (volume : Volume)
    (s3_client : S3Client) (cases_metadata : list CaseRecord) (e : Exc) (w w1 : World) :
  get_cases_metadata lib s3_client (READ_BUCKET R2_STATIC_BUCKET) volume w
  = (Ok (Some cases_metadata), w1) →
  ¬ Forall (λ c, provenance_source c = "Fastcase") cases_metadata →
  download_body s3_client (READ_BUCKET R2_STATIC_BUCKET) (pdf_key volume) = Raise e →
  (process_volume lib R2_STATIC_BUCKET R2_SPLIT_PDFS_BUCKET volume s3_client w).1 = Raise e.
Proof.
  intros Hload Hsome Hdown.
  by rewrite (process_volume_download_failure_run lib _ _ _ _ cases_metadata e w w1).
Qed.

Lemma process_volume_download_failure_propagates_witness :
  (process_volume Fixture.lib "static" "split" (Fixture.vol "a2d" "2" None)
     (Fixture.client "three-cases") Fixture.world0).1
  = Raise (ClientError
             "An error occurred (404) when calling the HeadObject operation: Not Found").
Proof.
  apply (process_volume_download_failure_propagates Fixture.lib "static" "split"
           (Fixture.vol "a2d" "2" None) (Fixture.client "three-cases")
           [Fixture.case "0001-01" 1 2 "Harvard"; Fixture.case "0003-01" 3 3 "Fastcase";
            Fixture.case "0004-01" 4 5 "Harvard"]
           _ Fixture.world0
           {| fs := ∅; store := ∅;
              trace := [EvGetObject "static" "a2d/2.zip";
                        EvGetObject "static" "a2d/2/CasesMetadata.json"] |}).
  - vm_compute. reflexivity.
  - intros Hall. apply Forall_cons in Hall as [Hc _]. discriminate.
  - reflexivity.
Defined.

(** C4 (the code departs from it): on a volume that has a record to split
    and whose PDF download fails, the temporary file created for the
    source PDF, which did not exist before, is still there when
    [process_volume] is left, and no removal of it was attempted. *)
Theorem process_volume_download_failure_leaves_temp_file {Page} (lib : PyLib Page)
    (R2_STATIC_BUCKET R2_SPLIT_PDFS_BUCKET : string) (volume : Volume)
    (s3_client : S3Client) (cases_metadata : list CaseRecord) (e : Exc) (w w1 : World) :
  get_cases_metadata lib s3_client (READ_BUCKET R2_STATIC_BUCKET) volume w
  = (Ok (Some cases_metadata), w1) →
  ¬ Forall (λ c, provenance_source c = "Fastcase") cases_metadata →
  download_body s3_client (READ_BUCKET R2_STATIC_BUCKET) (pdf_key volume) = Raise e →
  ∃ (pdf_path : string) (events : list Event) (w' : World),
    process_volume lib R2_STATIC_BUCKET R2_SPLIT_PDFS_BUCKET volume s3_client w
    = (Raise e, w')
    ∧ fs w !! pdf_path = None
    ∧ trace w' = trace w1 ++ events
    ∧ EvTempFile pdf_path ∈ events
    ∧ (EvUnlink pdf_path ∉ events)
    ∧ fs w' !! pdf_path = Some "".
Proof.
  intros Hload Hsome Hdown.
  destruct (get_cases_metadata_run lib s3_client (READ_BUCKET R2_STATIC_BUCKET) volume w)
    as (evs & Hrun & _).
  rewrite Hload in Hrun. injection Hrun as _ Hw1.
  eexists (fresh_tmp ".pdf" (fs w1)), _, _.
  split; [by apply (process_volume_download_failure_run lib _ _ _ _ cases_metadata)|].
  simpl.
  assert (Hfs : fs w1 = fs w) by (by rewrite Hw1).
  split; [rewrite Hfs; apply fresh_tmp_fresh|].
  split; [done|].
  split; [by apply elem_of_cons; left|].
  split; [|by rewrite lookup_insert_eq].
  intros Hin. repeat (apply elem_of_cons in Hin as [Hin|Hin]; [discriminate|]).
  by apply elem_of_nil in Hin.
Qed.

Lemma process_volume_download_failure_leaves_temp_file_witness :
  ∃ (pdf_path : string) (events : list Event) (w' : World),
    process_volume Fixture.lib "static" "split" (Fixture.vol "a2d" "2" None)
      (Fixture.client "three-cases") Fixture.world0
    = (Raise (ClientError
                "An error occurred (404) when calling the HeadObject operation: Not Found"),
       w')
    ∧ fs Fixture.world0 !! pdf_path = None
    ∧ trace w'
      = trace {| fs := ∅; store := ∅;
                 trace := [EvGetObject "static" "a2d/2.zip";
                           EvGetObject "static" "a2d/2/CasesMetadata.json"] |}
        ++ events
    ∧ EvTempFile pdf_path ∈ events
    ∧ (EvUnlink pdf_path ∉ events)
    ∧ fs w' !! pdf_path = Some "".
Proof.
  apply (process_volume_download_failure_leaves_temp_file Fixture.lib "static" "split"
           (Fixture.vol "a2d" "2" None) (Fixture.client "three-cases")
           [Fixture.case "0001-01" 1 2 "Harvard"; Fixture.case "0003-01" 3 3 "Fastcase";
            Fixture.case "0004-01" 4 5 "Harvard"]
           _ Fixture.world0
           {| fs := ∅; store := ∅;
              trace := [EvGetObject "static" "a2d/2.zip";
                        EvGetObject "static" "a2d/2/CasesMetadata.json"] |}).
  - vm_compute. reflexivity.
  - intros Hall. apply Forall_cons in Hall as [Hc _]. discriminate.
  - reflexivity.
Defined.

(** ** The metadata resolver *)

Lemma filter_selector (selector : option string) (P : Volume → string → Prop)
    `{!∀ v s, Decision (P v s)} (l : list Volume) :
  match selector with
  | Some s => if str_truthy s then filter (λ v, P v s) l else l
  | None => l
  end = filter (λ v, selector_holds selector (P v)) l.
Proof.
  assert (Hid : ∀ (Q : Volume → Prop) `{!∀ v, Decision (Q v)},
             (∀ v, Q v) → filter Q l = l).
  { intros Q ? HQ. induction l as [|v l' IH]; [done|].
    by rewrite filter_cons_True, IH by done. }
  destruct selector as [s|].
  - destruct (str_truthy s) eqn:Hs.
    + apply list_filter_iff. intros v. unfold selector_holds. by rewrite ?Hs.
    + symmetry. apply Hid. intros v. unfold selector_holds. by rewrite ?Hs.
  - symmetry. by apply Hid.
Qed.

Section resolver.
Context {Page : Type}.
Variable lib : PyLib Page.

Lemma filter_year_coerced (publication_year : string) (year : Z) (l : list Volume) :
  py_int lib publication_year = Ok year →
  filter_year lib l publication_year
  = Ok (filter (λ v, year_is lib v publication_year) l).
Proof.
  intros Hint.
  assert (Hiff : ∀ v, year_is lib v publication_year
                      ↔ get_publication_year v = Some year).
  { intros v. unfold year_is. by rewrite Hint. }
  induction l as [|v l IH]; simpl; [done|].
  rewrite Hint, IH, filter_cons.
  destruct (decide (get_publication_year v = Some year)) as [Hy|Hy].
  - rewrite bool_decide_eq_true_2 by done.
    rewrite decide_True; [done|]. by apply Hiff.
  - rewrite bool_decide_eq_false_2 by done.
    rewrite decide_False; [done|]. by rewrite Hiff.
Qed.

End resolver.

(** C6 as stated fails: a volume selector given without a reporter
    selector makes the resolver return nothing, although catalog records
    satisfy the only given filter. *)
Lemma get_volumes_to_process_volume_only_counterexample :
  (get_volumes_to_process Fixture.lib Fixture.get_volumes_metadata
     None (Some "1") None "static" Fixture.world0).1 = Ok []
  ∧ Fixture.get_volumes_metadata "static" = Ok "catalog"
  ∧ json_loads_volumes Fixture.lib "catalog" = Ok Fixture.catalog
  ∧ resolve_spec Fixture.lib None (Some "1") None Fixture.catalog
    = [Fixture.vol "a2d" "1" (Some 1990%Z); Fixture.vol "us" "1" (Some 1990%Z)].
Proof. repeat split; vm_compute; reflexivity. Qed.

(** C6 (amended): unless a volume selector is given without a reporter
    selector, and provided a given year selector coerces to an integer,
    the resolver returns exactly the catalog records, in catalog order,
    that satisfy the conjunction of the given non-empty filters: reporter
    equality, volume equality, and publication-year equality with the
    selector coerced to an integer; a record without a publication year
    never passes a given year filter. *)
Theorem get_volumes_to_process_conjunction_of_filters {Page} (lib : PyLib Page)
    (get_volumes_metadata : string → Result Exc string)
    (reporter volume publication_year : option string) (r2_bucket body : string)
    (catalog : list Volume) (w : World) :
  ¬ (opt_truthy volume = true ∧ reporter = None) →
  get_volumes_metadata r2_bucket = Ok body →
  json_loads_volumes lib body = Ok catalog →
  (∀ y, publication_year = Some y → str_truthy y = true → ∃ year, py_int lib y = Ok year) →
  get_volumes_to_process lib get_volumes_metadata reporter volume publication_year
    r2_bucket w
  = (Ok (resolve_spec lib reporter volume publication_year catalog), w)
  ∧ (∀ v, v ∈ resolve_spec lib reporter volume publication_year catalog →
          v ∈ catalog ∧ selects lib reporter volume publication_year v)
  ∧ (∀ v, v ∈ catalog → opt_truthy publication_year = true →
          get_publication_year v = None →
          v ∉ resolve_spec lib reporter volume publication_year catalog).
Proof.
  intros Hguard Hget Hjson Hint.
  split; [|split].
  - unfold get_volumes_to_process.
    destruct (opt_truthy volume && bool_decide (reporter = None)) eqn:Hg.
    { apply andb_true_iff in Hg as [Hv Hr%bool_decide_eq_true]. by destruct Hguard. }
    step. rewrite Hget, Hjson. simpl.
    rewrite (filter_selector reporter (λ v r, reporter_slug v = r)).
    rewrite (filter_selector volume (λ v f, volume_folder v = f)).
    set (l := filter _ (filter _ catalog)).
    assert (Hspec : resolve_spec lib reporter volume publication_year catalog
                    = filter (λ v, selector_holds publication_year (year_is lib v)) l).
    { unfold resolve_spec, l. rewrite !list_filter_filter. apply list_filter_iff.
      intros v. unfold selects. tauto. }
    rewrite Hspec, <- (filter_selector publication_year (year_is lib)).
    destruct publication_year as [y|]; [|done].
    destruct (str_truthy y) eqn:Hy; [|done].
    destruct (Hint y eq_refl Hy) as [year Hyear].
    by rewrite (filter_year_coerced lib y year).
  - intros v Hv. unfold resolve_spec in Hv. apply list_elem_of_filter in Hv. tauto.
  - intros v _ Hgiven Hnone Hv. unfold resolve_spec in Hv.
    apply list_elem_of_filter in Hv as [(_ & _ & Hy) _].
    destruct publication_year as [y|]; [|done]. simpl in Hgiven, Hy.
    unfold selector_holds in Hy. rewrite Hgiven in Hy. unfold year_is in Hy.
    destruct (py_int lib y); [congruence|done].
Qed.

Lemma get_volumes_to_process_conjunction_of_filters_witness :
  get_volumes_to_process Fixture.lib Fixture.get_volumes_metadata
    (Some "a2d") None (Some "1990") "static" Fixture.world0
  = (Ok (resolve_spec Fixture.lib (Some "a2d") None (Some "1990") Fixture.catalog),
     Fixture.world0)
  ∧ (∀ v, v ∈ resolve_spec Fixture.lib (Some "a2d") None (Some "1990") Fixture.catalog →
          v ∈ Fixture.catalog ∧ selects Fixture.lib (Some "a2d") None (Some "1990") v)
  ∧ (∀ v, v ∈ Fixture.catalog → opt_truthy (Some "1990") = true →
          get_publication_year v = None →
          v ∉ resolve_spec Fixture.lib (Some "a2d") None (Some "1990") Fixture.catalog).
Proof.
  apply (get_volumes_to_process_conjunction_of_filters Fixture.lib
           Fixture.get_volumes_metadata (Some "a2d") None (Some "1990")
           "static" "catalog" Fixture.catalog Fixture.world0).
  - intros [Hv _]. simpl in Hv. discriminate.
  - reflexivity.
  - reflexivity.
  - intros y [= <-] _. exists 1990%Z. reflexivity.
Defined.

(** ** The volume processor once the download has succeeded *)

Section after_download.
Context {Page : Type}.
Variable lib : PyLib Page.
Variables R2_STATIC_BUCKET R2_SPLIT_PDFS_BUCKET : string.
Variables (volume : Volume) (s3_client : S3Client).

(** Splitting creates files under fresh names only: what was on disk
    stays, and the returned paths are new. *)
Lemma split_cases_frame (reader : list Page) (cases_metadata : list CaseRecord) :
  ∀ (case_pdfs : list (string * string)) (w : World) r w',
    split_cases lib reader cases_metadata case_pdfs w = (r, w') →
    (∀ p, is_Some (fs w !! p) → fs w' !! p = fs w !! p)
    ∧ (∀ res, r = Ok res →
         ∃ new, res = case_pdfs ++ new ∧ ∀ q, q ∈ new.*2 → fs w !! q = None).
Proof.
  induction cases_metadata as [|c cases IH]; intros case_pdfs w r w' Hrun.
  - injection Hrun as <- <-. split; [done|].
    intros res [= <-]. exists []. rewrite app_nil_r. split; [done|].
    by intros q Hq%elem_of_nil.
  - simpl in Hrun. case_bool_decide as Hc; [|by apply IH].
    step. destruct (add_pages reader [] _) as [writer|e]; simpl in Hrun.
    + apply IH in Hrun as [Hkeep Hnew]. simpl in Hkeep, Hnew.
      pose proof (fresh_tmp_fresh ".pdf" (fs w)) as Hfresh.
      set (p := fresh_tmp ".pdf" (fs w)) in *.
      assert (Hother : ∀ q : string, q ≠ p →
                (<[p:=pdf_write lib writer]> (<[p:=""]> (fs w)) : gmap string string) !! q
                = fs w !! q).
      { intros q Hq. by rewrite !lookup_insert_ne. }
      split.
      * intros q Hq. assert (q ≠ p) by (intros ->; rewrite Hfresh in Hq; by destruct Hq).
        rewrite Hkeep; rewrite Hother; done.
      * intros res Hres. destruct (Hnew res Hres) as (new & -> & Hnone).
        exists ((file_name c, p) :: new). split; [by rewrite <- app_assoc|].
        intros q Hq. simpl in Hq. apply elem_of_cons in Hq as [->|Hq]; [done|].
        pose proof (Hnone q Hq) as Hn.
        destruct (decide (q = p)) as [->|Hne]; [by rewrite lookup_insert_eq in Hn|].
        by rewrite Hother in Hn.
    + injection Hrun as <- <-. split; [done|]. by intros res [=].
Qed.

(** The upload stage touches no local file outside its batch. *)
Lemma upload_case_pdfs_frame (case_pdfs : list (string * string)) :
  ∀ (w : World) r w',
    upload_case_pdfs R2_SPLIT_PDFS_BUCKET case_pdfs volume s3_client w = (r, w') →
    ∀ p, p ∉ case_pdfs.*2 → fs w' !! p = fs w !! p.
Proof.
  induction case_pdfs as [|[name path] items IH]; intros w r w' Hrun p Hp.
  - by injection Hrun as <- <-.
  - simpl in Hp. apply not_elem_of_cons in Hp as [Hne Hp].
    cbn [upload_case_pdfs] in Hrun. unfold s3_upload_file, os_unlink in Hrun. step.
    destruct (fs w !! path) as [data|] eqn:Hpath; simpl in Hrun.
    + destruct (upload_error s3_client _ _ data); simpl in Hrun;
        rewrite Hpath in Hrun; apply IH with (p := p) in Hrun; try done;
        simpl in Hrun; by rewrite lookup_delete_ne in Hrun.
    + rewrite Hpath in Hrun. by injection Hrun as <- <-.
Qed.

Lemma bind_inv {A B} (c : M A) (k : A → M B) (w : World) r w' :
  (c ≫= k) w = (r, w') →
  (∃ a w1, c w = (Ok a, w1) ∧ k a w1 = (r, w'))
  ∨ (∃ e, c w = (Raise e, w') ∧ r = Raise e).
Proof.
  unfold mbind, M_bind. destruct (c w) as [[a|e] w1]; intros H.
  - left. by exists a, w1.
  - right. injection H as <- <-. by exists e.
Qed.

Lemma split_pdf_frame (pdf_path data : string) (cases_metadata : list CaseRecord)
    (w : World) r w' :
  split_pdf lib pdf_path cases_metadata w = (r, w') →
  fs w !! pdf_path = Some data →
  fs w' !! pdf_path = Some data ∧ ∀ res, r = Ok res → pdf_path ∉ res.*2.
Proof.
  intros Hrun Hfile. unfold split_pdf in Hrun.
  apply bind_inv in Hrun as [(reader & w1 & Hread & Hrun)|(e & Hread & ->)].
  - assert (w1 = w) as ->.
    { unfold PdfReader, lift_py in Hread. rewrite Hfile in Hread.
      destruct (pdf_read lib data); congruence. }
    apply split_cases_frame in Hrun as [Hkeep Hnew]. split.
    + rewrite Hkeep; [done|by eexists].
    + intros res Hres. destruct (Hnew res Hres) as (new & -> & Hnone).
      intros Hin. apply Hnone in Hin. congruence.
  - assert (w' = w) as ->.
    { unfold PdfReader, lift_py in Hread. rewrite Hfile in Hread.
      destruct (pdf_read lib data); congruence. }
    by split.
Qed.

(** The body of the [try] block of [process_volume] leaves the source PDF
    in place and, when it completes, yields a status message. *)
Lemma process_volume_try_frame (cases_metadata : list CaseRecord) (pdf_path data : string)
    (w : World) r w' :
  (case_pdfs ← split_pdf lib pdf_path cases_metadata;
   print ("Split " +:+ pretty (length case_pdfs) +:+ " case PDFs");;
   (if bool_decide (length case_pdfs ≠ 0)
    then upload_case_pdfs R2_SPLIT_PDFS_BUCKET case_pdfs volume s3_client
    else mret tt);;
   mret (Some ("Processed " +:+ pretty (length case_pdfs)
               +:+ " cases for volume " +:+ volume_folder volume))) w
  = (r, w') →
  fs w !! pdf_path = Some data →
  fs w' !! pdf_path = Some data ∧ ∀ a, r = Ok a → ∃ status, a = Some status.
Proof.
  intros Hrun Hfile.
  apply bind_inv in Hrun as [(case_pdfs & w1 & Hsplit & Hrun)|(e & Hsplit & ->)].
  - apply split_pdf_frame with (data := data) in Hsplit as [Hfile1 Hout]; [|done].
    specialize (Hout case_pdfs eq_refl).
    apply bind_inv in Hrun as [([] & w2 & Hprint & Hrun)|(e & Hprint & ->)];
      [|discriminate].
    injection Hprint as <-.
    apply bind_inv in Hrun as [([] & w3 & Hup & Hrun)|(e & Hup & ->)].
    + injection Hrun as <- <-. split; [|intros a [= <-]; by eexists].
      case_bool_decide.
      * apply upload_case_pdfs_frame with (p := pdf_path) in Hup; [|done].
        by rewrite Hup.
      * by injection Hup as <-.
    + split; [|by intros a [=]].
      case_bool_decide; [|discriminate].
      apply upload_case_pdfs_frame with (p := pdf_path) in Hup; [|done].
      by rewrite Hup.
  - apply split_pdf_frame with (data := data) in Hsplit as [Hfile1 _]; [|done].
    split; [done|by intros a [=]].
Qed.

(** With the PDF downloaded, [process_volume] always returns a status
    message, and the temporary file of the source PDF is removed before it
    returns, whatever happens while splitting and uploading. *)
Lemma process_volume_after_download (cases_metadata : list CaseRecord) (body : string)
    (w w1 : World) :
  get_cases_metadata lib s3_client (READ_BUCKET R2_STATIC_BUCKET) volume w
  = (Ok (Some cases_metadata), w1) →
  ¬ Forall (λ c, provenance_source c = "Fastcase") cases_metadata →
  download_body s3_client (READ_BUCKET R2_STATIC_BUCKET) (pdf_key volume) = Ok body →
  ∃ (status : string) (w' : World),
    process_volume lib R2_STATIC_BUCKET R2_SPLIT_PDFS_BUCKET volume s3_client w
    = (Ok (Some status), w')
    ∧ fs w' !! fresh_tmp ".pdf" (fs w1) = None
    ∧ EvUnlink (fresh_tmp ".pdf" (fs w1)) ∈ trace w'.
Proof.
  intros Hload Hsome Hdown.
  unfold process_volume. unfold mbind at 1. unfold M_bind at 1. rewrite Hload.
  destruct cases_metadata as [|c cases]; [by destruct Hsome|].
  destruct (forallb _ (c :: cases)) eqn:Hall.
  { apply forallb_Fastcase in Hall. by destruct Hsome. }
  cbn [negb]. cbv iota.
  set (p := fresh_tmp ".pdf" (fs w1)).
  unfold mbind at 1. unfold M_bind at 1. unfold NamedTemporaryFile at 1. fold p.
  cbv zeta iota beta.
  unfold mbind at 1. unfold M_bind at 1.
  unfold download_pdf at 1. fold (pdf_key volume).
  unfold try_except at 1. unfold s3_download_file at 1. rewrite Hdown.
  cbv iota beta.
  set (w2 := emit (EvDownloadFile _ _ p) _).
  assert (Hfile : fs w2 !! p = Some body) by (subst w2; simpl; apply lookup_insert_eq).
  unfold try_finally at 1. unfold try_except at 1.
  match goal with |- context [match ?run w2 with _ => _ end] =>
    destruct (run w2) as [r w3] eqn:Hrun end.
  apply process_volume_try_frame with (data := body) in Hrun as [Hfile3 Hstatus];
    [|done].
  destruct r as [a|e].
  - destruct (Hstatus a eq_refl) as [status ->].
    unfold os_unlink. rewrite Hfile3. eexists status, _. split; [done|]. simpl.
    split; [apply lookup_delete_eq|]. apply elem_of_app. right. by left.
  - step. unfold os_unlink. simpl. rewrite Hfile3. eexists _, _. split; [done|]. simpl.
    split; [apply lookup_delete_eq|]. apply elem_of_app. right. by left.
Qed.

End after_download.

(** * Further properties of the code *)

(** ** Page lookup as Python does it *)

(** The page [reader.pages[i]] yields when it does not raise: index [i]
    from the start if it is not negative, from the end otherwise. *)
Definition page_at {Page} (pages : list Page) (i : Z) : option Page :=
  pages !! Z.to_nat (i `mod` Z.of_nat (length pages)).

(** The indices [reader.pages] accepts in a document of [n] pages. *)
Definition index_accepted (n : nat) (i : Z) : Prop :=
  (- Z.of_nat n ≤ i < Z.of_nat n)%Z.

(** The loop [range(first_page_order - 1, last_page_order)] of a record
    is empty, or runs over accepted indices only. *)
Definition indices_accepted (n : nat) (c : CaseRecord) : Prop :=
  (last_page_order c ≤ first_page_order c - 1
   ∨ (- Z.of_nat n ≤ first_page_order c - 1 ∧ last_page_order c ≤ Z.of_nat n))%Z.

#[global] Instance indices_accepted_dec (n : nat) (c : CaseRecord) :
  Decision (indices_accepted n c).
Proof. unfold indices_accepted. apply _. Defined.

(** The pages the loop of a record adds, when all its indices are
    accepted. *)
Definition case_doc {Page} (pages : list Page) (c : CaseRecord) : list Page :=
  omap (page_at pages) (seqZ (first_page_order c - 1)
                             (last_page_order c - (first_page_order c - 1))).

Section splitter_more.
Context {Page : Type}.
Variable lib : PyLib Page.

Lemma pages_getitem_accepted (pages : list Page) (i : Z) :
  index_accepted (length pages) i →
  ∃ p, page_at pages i = Some p ∧ pages_getitem pages i = Ok p.
Proof.
  unfold index_accepted, page_at, pages_getitem. intros Hi. cbv zeta.
  destruct (decide (i < 0)%Z) as [Hneg|Hpos].
  - rewrite (bool_decide_eq_true_2 (i < 0)%Z) by done.
    rewrite bool_decide_eq_false_2 by lia.
    replace (i `mod` Z.of_nat (length pages))%Z with (Z.of_nat (length pages) + i)%Z.
    + destruct (lookup_lt_is_Some_2 pages (Z.to_nat (Z.of_nat (length pages) + i)))
        as [p Hp]; [lia|].
      exists p. by rewrite Hp.
    + apply Z.mod_unique with (-1)%Z; lia.
  - rewrite (bool_decide_eq_false_2 (i < 0)%Z) by done.
    rewrite bool_decide_eq_false_2 by lia.
    rewrite Z.mod_small by lia.
    destruct (lookup_lt_is_Some_2 pages (Z.to_nat i)) as [p Hp]; [lia|].
    exists p. by rewrite Hp.
Qed.

Lemma pages_getitem_rejected (pages : list Page) (i : Z) :
  ¬ index_accepted (length pages) i →
  pages_getitem pages i = Raise (IndexError "Sequence index out of range").
Proof.
  unfold index_accepted, pages_getitem. intros Hi. cbv zeta.
  destruct (decide (i < 0)%Z) as [Hneg|Hpos].
  - rewrite (bool_decide_eq_true_2 (i < 0)%Z) by done.
    by rewrite bool_decide_eq_true_2 by lia.
  - rewrite (bool_decide_eq_false_2 (i < 0)%Z) by done.
    by rewrite bool_decide_eq_true_2 by lia.
Qed.

Lemma add_pages_accepted (reader : list Page) (k : nat) :
  ∀ (writer : list Page) (a : Z),
    (- Z.of_nat (length reader) ≤ a)%Z →
    (a + Z.of_nat k ≤ Z.of_nat (length reader))%Z →
    add_pages reader writer (seqZ a (Z.of_nat k))
    = Ok (writer ++ omap (page_at reader) (seqZ a (Z.of_nat k))).
Proof.
  induction k as [|k IH]; intros writer a Ha Hb.
  - simpl. by rewrite app_nil_r.
  - rewrite seqZ_cons by lia. simpl.
    destruct (pages_getitem_accepted reader a) as (p & Hp & ->);
      [unfold index_accepted; lia|].
    rewrite Hp.
    replace (Z.pred (Z.of_nat (S k))) with (Z.of_nat k) by lia.
    rewrite IH by lia. by rewrite <- app_assoc.
Qed.

Lemma add_pages_case_doc (reader : list Page) (c : CaseRecord) :
  indices_accepted (length reader) c →
  add_pages reader [] (py_range (first_page_order c - 1) (last_page_order c))
  = Ok (case_doc reader c).
Proof.
  unfold indices_accepted, py_range, case_doc. intros [Hempty|[Ha Hb]].
  - by rewrite seqZ_nil by lia.
  - destruct (decide (last_page_order c ≤ first_page_order c - 1)%Z) as [Hle|Hlt].
    + by rewrite seqZ_nil by lia.
    + rewrite <- (Z2Nat.id (last_page_order c - (first_page_order c - 1))) by lia.
      by rewrite add_pages_accepted by lia.
Qed.

Lemma add_pages_rejected (reader : list Page) (page_nums : list Z) (i : Z) :
  i ∈ page_nums → ¬ index_accepted (length reader) i →
  ∀ writer, add_pages reader writer page_nums
            = Raise (IndexError "Sequence index out of range").
Proof.
  intros Hin Hi. induction page_nums as [|n page_nums IH]; intros writer.
  - by apply elem_of_nil in Hin.
  - simpl. destruct (pages_getitem reader n) eqn:Hn.
    + apply elem_of_cons in Hin as [->|Hin].
      * rewrite pages_getitem_rejected in Hn by done. discriminate.
      * by apply IH.
    + by rewrite (pages_getitem_raises _ _ _ Hn).
Qed.

Lemma add_pages_not_accepted (reader : list Page) (c : CaseRecord) :
  ¬ indices_accepted (length reader) c →
  add_pages reader [] (py_range (first_page_order c - 1) (last_page_order c))
  = Raise (IndexError "Sequence index out of range").
Proof.
  unfold indices_accepted. intros Hno.
  destruct (decide (- Z.of_nat (length reader) ≤ first_page_order c - 1)%Z) as [Ha|Ha].
  - apply (add_pages_rejected reader _ (last_page_order c - 1)%Z).
    + unfold py_range. apply elem_of_seqZ. lia.
    + unfold index_accepted. lia.
  - apply (add_pages_rejected reader _ (first_page_order c - 1)%Z).
    + unfold py_range. apply elem_of_seqZ. lia.
    + unfold index_accepted. lia.
Qed.

(** The outer loop on records whose loops all complete: [doc] gives the
    pages each loop adds. *)
Lemma split_cases_completes (reader : list Page) (doc : CaseRecord → list Page)
    (cases_metadata : list CaseRecord) :
  Forall (λ c, provenance_source c ≠ "Fastcase" →
               add_pages reader [] (py_range (first_page_order c - 1) (last_page_order c))
               = Ok (doc c))
         cases_metadata →
  ∀ (case_pdfs : list (string * string)) (w : World),
  ∃ (new : list (string * string)) (w' : World),
    split_cases lib reader cases_metadata case_pdfs w = (Ok (case_pdfs ++ new), w')
    ∧ Forall2 (λ c np, np.1 = file_name c ∧ fs w' !! np.2 = Some (pdf_write lib (doc c)))
              (selected cases_metadata) new
    ∧ NoDup new.*2
    ∧ (∀ p, p ∈ new.*2 → fs w !! p = None)
    ∧ (∀ p, p ∉ new.*2 → fs w' !! p = fs w !! p)
    ∧ store w' = store w
    ∧ trace w' = trace w ++ (EvTempFile <$> new.*2).
Proof.
  induction 1 as [|c cases Hc Hcases IH]; intros case_pdfs w.
  - exists [], w. simpl. rewrite !app_nil_r.
    split; [done|]. split; [constructor|]. split; [constructor|].
    split; [by intros p Hp%elem_of_nil|]. done.
  - simpl. unfold selected. rewrite filter_cons. fold (selected cases).
    destruct (decide (provenance_source c ≠ "Fastcase")) as [Hsel|Hsel].
    + rewrite bool_decide_eq_true_2 by done. step. rewrite (Hc Hsel).
      set (p := fresh_tmp ".pdf" (fs w)).
      set (w1 := with_fs <[p:=pdf_write lib (doc c)]>
                   (emit (EvTempFile p) (with_fs <[p:=""]> w))).
      destruct (IH (case_pdfs ++ [(file_name c, p)]) w1)
        as (new & w' & Hrun & Hall & Hnd & Hfresh & Hkeep & Hst & Htr).
      exists ((file_name c, p) :: new), w'.
      assert (Hp : p ∉ new.*2).
      { intros Hin. apply Hfresh in Hin. subst w1. simpl in Hin.
        by rewrite lookup_insert_eq in Hin. }
      split; [by rewrite Hrun, <- app_assoc|].
      split.
      { constructor; [|done]. simpl. split; [done|].
        rewrite (Hkeep _ Hp). subst w1. simpl. by rewrite lookup_insert_eq. }
      split; [simpl; by constructor|].
      split.
      { intros q Hq. simpl in Hq. apply elem_of_cons in Hq as [->|Hq].
        - apply fresh_tmp_fresh.
        - pose proof (Hfresh _ Hq) as Hn. subst w1. simpl in Hn.
          destruct (decide (p = q)) as [->|Hne]; [by rewrite lookup_insert_eq in Hn|].
          by rewrite !lookup_insert_ne in Hn. }
      split.
      { intros q Hq. simpl in Hq. apply not_elem_of_cons in Hq as [Hne Hq].
        rewrite (Hkeep _ Hq). subst w1. simpl. by rewrite !lookup_insert_ne. }
      split; [by rewrite Hst|].
      rewrite Htr. subst w1. simpl. by rewrite <- app_assoc.
    + rewrite bool_decide_eq_false_2 by done. apply IH.
Qed.

(** The outer loop run on two lists in a row. *)
Lemma split_cases_app (reader : list Page) (l1 l2 : list CaseRecord) :
  ∀ (case_pdfs : list (string * string)) (w : World),
    split_cases lib reader (l1 ++ l2) case_pdfs w
    = match split_cases lib reader l1 case_pdfs w with
      | (Ok case_pdfs', w1) => split_cases lib reader l2 case_pdfs' w1
      | (Raise e, w1) => (Raise e, w1)
      end.
Proof.
  induction l1 as [|c l1 IH]; intros case_pdfs w; [done|].
  simpl. case_bool_decide; [|apply IH].
  step. destruct (add_pages reader [] _); simpl; [apply IH|done].
Qed.

(** The first record of the list whose loop stops on a rejected index
    stops the outer loop, which leaves the world as it then is. *)
Lemma split_cases_stops (reader : list Page) (c : CaseRecord) (rest : list CaseRecord)
    (case_pdfs : list (string * string)) (w : World) :
  provenance_source c ≠ "Fastcase" →
  ¬ indices_accepted (length reader) c →
  split_cases lib reader (c :: rest) case_pdfs w
  = (Raise (PyError (IndexError "Sequence index out of range")), w).
Proof.
  intros Hsel Hno. simpl. rewrite bool_decide_eq_true_2 by done. step.
  by rewrite add_pages_not_accepted.
Qed.

End splitter_more.

(** ** More on the splitter *)

Section splitter_outcomes.
Context {Page : Type}.
Variable lib : PyLib Page.

Lemma split_pdf_reads (pdf_path data : string) (pages : list Page)
    (cases_metadata : list CaseRecord) (w : World) :
  fs w !! pdf_path = Some data →
  pdf_read lib data = Ok pages →
  split_pdf lib pdf_path cases_metadata w = split_cases lib pages cases_metadata [] w.
Proof.
  intros Hfile Hread. unfold split_pdf, PdfReader. step. by rewrite Hfile, Hread.
Qed.

Lemma split_cases_not_accepted (reader : list Page) (cases_metadata : list CaseRecord) :
  ¬ Forall (λ c, provenance_source c ≠ "Fastcase" → indices_accepted (length reader) c)
           cases_metadata →
  ∀ (case_pdfs : list (string * string)) (w : World),
  ∃ w', split_cases lib reader cases_metadata case_pdfs w
        = (Raise (PyError (IndexError "Sequence index out of range")), w').
Proof.
  induction cases_metadata as [|c cases IH]; intros Hno case_pdfs w.
  - destruct Hno. constructor.
  - destruct (decide (provenance_source c ≠ "Fastcase")) as [Hsel|Hsel].
    + destruct (decide (indices_accepted (length reader) c)) as [Hok|Hbad].
      * simpl. rewrite bool_decide_eq_true_2 by done. step.
        rewrite (add_pages_case_doc reader c Hok). simpl.
        apply IH. intros Hrest. apply Hno. by constructor.
      * rewrite (split_cases_stops lib reader c cases case_pdfs w Hsel Hbad). by eexists.
    + simpl. rewrite bool_decide_eq_false_2 by done.
      apply IH. intros Hrest. apply Hno. by constructor.
Qed.

(** What any run of the outer loop leaves alone. *)
Lemma split_cases_quiet (reader : list Page) (cases_metadata : list CaseRecord) :
  ∀ (case_pdfs : list (string * string)) (w : World),
    store (split_cases lib reader cases_metadata case_pdfs w).2 = store w
    ∧ ∃ paths,
        trace (split_cases lib reader cases_metadata case_pdfs w).2
        = trace w ++ (EvTempFile <$> paths)
        ∧ ∀ p, p ∈ paths → fs w !! p = None.
Proof.
  induction cases_metadata as [|c cases IH]; intros case_pdfs w.
  - simpl. split; [done|]. exists []. rewrite app_nil_r. split; [done|].
    by intros p Hp%elem_of_nil.
  - simpl. case_bool_decide as Hc; [|apply IH].
    step. destruct (add_pages reader [] _) as [writer|e]; simpl.
    + set (p := fresh_tmp ".pdf" (fs w)).
      match goal with |- context [split_cases lib reader cases ?acc ?w1] =>
        destruct (IH acc w1) as (Hst & paths & Htr & Hfresh) end.
      simpl in Hst, Htr, Hfresh. split; [done|].
      exists (p :: paths). split; [by rewrite Htr, <- app_assoc|].
      intros q Hq. apply elem_of_cons in Hq as [->|Hq]; [apply fresh_tmp_fresh|].
      pose proof (Hfresh q Hq) as Hn.
      destruct (decide (q = p)) as [->|Hne]; [by rewrite lookup_insert_eq in Hn|].
      by rewrite !lookup_insert_ne in Hn.
    + split; [done|]. exists []. rewrite app_nil_r. split; [done|].
      by intros p Hp%elem_of_nil.
Qed.

End splitter_outcomes.

(** X1: [reader.pages[i]] is indexed the way pypdf does it.  When the loop
    of every non-excluded record is empty or stays within
    [-N <= index < N] for a source of [N] pages, [split_pdf] returns
    normally, with one pair per non-excluded record in order, and each
    case PDF is written from the pages at the record's indices, a negative
    index counting from the end of the document. *)
Theorem split_pdf_python_indexing {Page} (lib : PyLib Page)
    (pdf_path data : string) (pages : list Page)
    (cases_metadata : list CaseRecord) (w : World) :
  fs w !! pdf_path = Some data →
  pdf_read lib data = Ok pages →
  Forall (λ c, provenance_source c ≠ "Fastcase" → indices_accepted (length pages) c)
         cases_metadata →
  ∃ (case_pdfs : list (string * string)) (w' : World),
    split_pdf lib pdf_path cases_metadata w = (Ok case_pdfs, w')
    ∧ Forall2 (λ c np, np.1 = file_name c
                       ∧ fs w' !! np.2 = Some (pdf_write lib (case_doc pages c)))
              (selected cases_metadata) case_pdfs
    ∧ (∀ c i, c ∈ selected cases_metadata →
              (first_page_order c - 1 ≤ i < last_page_order c)%Z →
              (i < 0)%Z →
              page_at pages i = pages !! Z.to_nat (Z.of_nat (length pages) + i)).
Proof.
  intros Hfile Hread Hall.
  rewrite (split_pdf_reads lib pdf_path data pages) by done.
  destruct (split_cases_completes lib pages (case_doc pages) cases_metadata) with
    (case_pdfs := @nil (string * string)) (w := w) as (new & w' & Hrun & Hpairs & _).
  { eapply Forall_impl; [exact Hall|]. intros c Hc Hsel.
    by apply add_pages_case_doc, Hc. }
  exists new, w'. split; [done|]. split; [done|].
  intros c i Hc Hi Hneg. unfold page_at.
  apply list_elem_of_filter in Hc as [Hsel Hin].
  rewrite Forall_forall in Hall. specialize (Hall c Hin Hsel).
  unfold indices_accepted in Hall.
  f_equal. f_equal. symmetry. apply Z.mod_unique with (-1)%Z; lia.
Qed.

Lemma split_pdf_python_indexing_witness :
  ∃ (case_pdfs : list (string * string)) (w' : World),
    split_pdf Fixture.lib "/vol.pdf"
      [Fixture.case "0000-01" 0 2 "Harvard"; Fixture.case "0003-01" 3 3 "Fastcase"]
      (with_fs <["/vol.pdf" := "abcde"]> Fixture.world0)
    = (Ok case_pdfs, w')
    ∧ Forall2 (λ c np, np.1 = file_name c
                       ∧ fs w' !! np.2
                         = Some (pdf_write Fixture.lib
                                   (case_doc (String.list_ascii_of_string "abcde") c)))
              (selected [Fixture.case "0000-01" 0 2 "Harvard";
                         Fixture.case "0003-01" 3 3 "Fastcase"])
              case_pdfs
    ∧ (∀ c i, c ∈ selected [Fixture.case "0000-01" 0 2 "Harvard";
                            Fixture.case "0003-01" 3 3 "Fastcase"] →
              (first_page_order c - 1 ≤ i < last_page_order c)%Z →
              (i < 0)%Z →
              page_at (String.list_ascii_of_string "abcde") i
              = String.list_ascii_of_string "abcde"
                !! Z.to_nat (Z.of_nat (length (String.list_ascii_of_string "abcde")) + i)).
Proof.
  apply (split_pdf_python_indexing Fixture.lib "/vol.pdf" "abcde").
  - reflexivity.
  - reflexivity.
  - constructor; [|constructor; [|constructor]];
      intros _; unfold indices_accepted, Fixture.case; simpl; lia.
Defined.

(** X2: a non-excluded record with [first_page_order = 0] does not fail:
    on a source of at least one page, with [last_page_order] between 0 and
    the page count, its case PDF starts with the last page of the source,
    followed by the first [last_page_order] pages. *)
Theorem split_pdf_first_page_order_zero {Page} (lib : PyLib Page)
    (pdf_path data : string) (pages : list Page) (last_page : Page)
    (c : CaseRecord) (w : World) :
  fs w !! pdf_path = Some data →
  pdf_read lib data = Ok pages →
  last pages = Some last_page →
  provenance_source c ≠ "Fastcase" →
  first_page_order c = 0%Z →
  (0 ≤ last_page_order c ≤ Z.of_nat (length pages))%Z →
  ∃ (temp : string) (w' : World),
    split_pdf lib pdf_path [c] w = (Ok [(file_name c, temp)], w')
    ∧ fs w' !! temp
      = Some (pdf_write lib (last_page :: take (Z.to_nat (last_page_order c)) pages)).
Proof.
  intros Hfile Hread Hlast Hsel Hfirst Hrange.
  rewrite (split_pdf_reads lib pdf_path data pages) by done.
  assert (Hlen : (1 ≤ length pages)%nat).
  { destruct pages; [discriminate|simpl; lia]. }
  assert (Hdoc : add_pages pages [] (py_range (first_page_order c - 1) (last_page_order c))
                 = Ok (last_page :: take (Z.to_nat (last_page_order c)) pages)).
  { rewrite Hfirst. unfold py_range. change (0 - 1)%Z with (-1)%Z.
    rewrite seqZ_cons by lia. cbn [add_pages].
    destruct (pages_getitem_accepted pages (-1)%Z) as (p & Hp & ->);
      [unfold index_accepted; lia|].
    unfold page_at in Hp.
    replace ((-1) `mod` Z.of_nat (length pages))%Z
      with (Z.of_nat (length pages) - 1)%Z in Hp
      by (apply Z.mod_unique with (-1)%Z; lia).
    rewrite last_lookup in Hlast.
    replace (Z.to_nat (Z.of_nat (length pages) - 1)) with (pred (length pages)) in Hp
      by lia.
    assert (p = last_page) as -> by congruence.
    replace (Z.pred (last_page_order c - -1)) with (last_page_order c) by lia.
    change (Z.succ (-1)) with 0%Z.
    rewrite <- (Z2Nat.id (last_page_order c)) at 1 by lia.
    rewrite add_pages_seqZ by lia. by rewrite drop_0. }
  destruct (split_cases_completes lib pages
              (λ _, last_page :: take (Z.to_nat (last_page_order c)) pages) [c])
    with (case_pdfs := @nil (string * string)) (w := w)
    as (new & w' & Hrun & Hpairs & _).
  { constructor; [done|constructor]. }
  unfold selected in Hpairs. rewrite filter_cons, decide_True in Hpairs by done.
  rewrite filter_nil in Hpairs.
  apply Forall2_cons_inv_l in Hpairs as ([name temp] & rest & [Hname Hfs] & Hrest & ->).
  apply Forall2_nil_inv_l in Hrest as ->. simpl in Hname, Hfs. subst name.
  by exists temp, w'.
Qed.

Lemma split_pdf_first_page_order_zero_witness :
  ∃ (temp : string) (w' : World),
    split_pdf Fixture.lib "/vol.pdf" [Fixture.case "0000-01" 0 2 "Harvard"]
      (with_fs <["/vol.pdf" := "abcde"]> Fixture.world0)
    = (Ok [(file_name (Fixture.case "0000-01" 0 2 "Harvard"), temp)], w')
    ∧ fs w' !! temp
      = Some (pdf_write Fixture.lib
                (Ascii.Ascii true false true false false true true false
                 :: take (Z.to_nat (last_page_order (Fixture.case "0000-01" 0 2 "Harvard")))
                         (String.list_ascii_of_string "abcde"))).
Proof.
  apply (split_pdf_first_page_order_zero Fixture.lib "/vol.pdf" "abcde").
  - reflexivity.
  - reflexivity.
  - reflexivity.
  - discriminate.
  - reflexivity.
  - simpl. lia.
Defined.

(** X3: on a readable source of [N] pages, [split_pdf] returns normally
    exactly when the loop of every non-excluded record is empty or stays
    within [-N <= index < N]; otherwise it raises pypdf's [IndexError],
    also for an index below [-N]. *)
Theorem split_pdf_succeeds_iff_indices_accepted {Page} (lib : PyLib Page)
    (pdf_path data : string) (pages : list Page)
    (cases_metadata : list CaseRecord) (w : World) :
  fs w !! pdf_path = Some data →
  pdf_read lib data = Ok pages →
  ((∃ case_pdfs w', split_pdf lib pdf_path cases_metadata w = (Ok case_pdfs, w'))
   ↔ Forall (λ c, provenance_source c ≠ "Fastcase" → indices_accepted (length pages) c)
            cases_metadata)
  ∧ ((∃ w', split_pdf lib pdf_path cases_metadata w
            = (Raise (PyError (IndexError "Sequence index out of range")), w'))
     ↔ ¬ Forall (λ c, provenance_source c ≠ "Fastcase" → indices_accepted (length pages) c)
                cases_metadata).
Proof.
  intros Hfile Hread.
  rewrite (split_pdf_reads lib pdf_path data pages) by done.
  assert (Hyes : Forall (λ c, provenance_source c ≠ "Fastcase"
                              → indices_accepted (length pages) c) cases_metadata →
                 ∃ case_pdfs w', split_cases lib pages cases_metadata [] w
                                 = (Ok case_pdfs, w')).
  { intros Hall.
    destruct (split_cases_completes lib pages (case_doc pages) cases_metadata) with
      (case_pdfs := @nil (string * string)) (w := w) as (new & w' & Hrun & _).
    { eapply Forall_impl; [exact Hall|]. intros c Hc Hsel.
      by apply add_pages_case_doc, Hc. }
    by exists new, w'. }
  pose proof (split_cases_not_accepted lib pages cases_metadata) as Hno.
  destruct (decide (Forall (λ c, provenance_source c ≠ "Fastcase"
                                 → indices_accepted (length pages) c) cases_metadata))
    as [Hall|Hnot].
  - destruct (Hyes Hall) as (res & w' & Hrun). split; split.
    + by intros _.
    + intros _. by exists res, w'.
    + intros [w'' Hbad]. congruence.
    + intros Hnot. by destruct Hnot.
  - destruct (Hno Hnot [] w) as [w' Hrun]. split; split.
    + intros (res & w'' & Hok). congruence.
    + intros Hall. by destruct Hnot.
    + by intros _.
    + intros _. by exists w'.
Qed.

Lemma split_pdf_succeeds_iff_indices_accepted_witness :
  ((∃ case_pdfs w',
      split_pdf Fixture.lib "/vol.pdf" [Fixture.case "far" (-9) 2 "Harvard"]
        (with_fs <["/vol.pdf" := "abcde"]> Fixture.world0) = (Ok case_pdfs, w'))
   ↔ Forall (λ c, provenance_source c ≠ "Fastcase"
                  → indices_accepted (length (String.list_ascii_of_string "abcde")) c)
            [Fixture.case "far" (-9) 2 "Harvard"])
  ∧ ((∃ w',
        split_pdf Fixture.lib "/vol.pdf" [Fixture.case "far" (-9) 2 "Harvard"]
          (with_fs <["/vol.pdf" := "abcde"]> Fixture.world0)
        = (Raise (PyError (IndexError "Sequence index out of range")), w'))
     ↔ ¬ Forall (λ c, provenance_source c ≠ "Fastcase"
                      → indices_accepted (length (String.list_ascii_of_string "abcde")) c)
                [Fixture.case "far" (-9) 2 "Harvard"]).
Proof.
  apply (split_pdf_succeeds_iff_indices_accepted Fixture.lib "/vol.pdf" "abcde").
  - reflexivity.
  - reflexivity.
Defined.

(** X4: a non-excluded record whose [last_page_order] is below its
    [first_page_order] is neither skipped nor an error: whatever the size
    of the source, it gets a case PDF written from no page at all. *)
Theorem split_pdf_inverted_range_gives_empty_document {Page} (lib : PyLib Page)
    (pdf_path data : string) (pages : list Page)
    (cases_metadata : list CaseRecord) (w : World) :
  fs w !! pdf_path = Some data →
  pdf_read lib data = Ok pages →
  Forall (λ c, provenance_source c ≠ "Fastcase" →
               (last_page_order c < first_page_order c)%Z) cases_metadata →
  ∃ (case_pdfs : list (string * string)) (w' : World),
    split_pdf lib pdf_path cases_metadata w = (Ok case_pdfs, w')
    ∧ Forall2 (λ c np, np.1 = file_name c ∧ fs w' !! np.2 = Some (pdf_write lib []))
              (selected cases_metadata) case_pdfs.
Proof.
  intros Hfile Hread Hall.
  rewrite (split_pdf_reads lib pdf_path data pages) by done.
  destruct (split_cases_completes lib pages (λ _, []) cases_metadata) with
    (case_pdfs := @nil (string * string)) (w := w) as (new & w' & Hrun & Hpairs & _).
  { eapply Forall_impl; [exact Hall|]. intros c Hc Hsel. specialize (Hc Hsel).
    unfold py_range. by rewrite seqZ_nil by lia. }
  by exists new, w'.
Qed.

Lemma split_pdf_inverted_range_gives_empty_document_witness :
  ∃ (case_pdfs : list (string * string)) (w' : World),
    split_pdf Fixture.lib "/vol.pdf" [Fixture.case "0090-01" 90 40 "Harvard"]
      (with_fs <["/vol.pdf" := "abcde"]> Fixture.world0)
    = (Ok case_pdfs, w')
    ∧ Forall2 (λ c np, np.1 = file_name c
                       ∧ fs w' !! np.2 = Some (pdf_write Fixture.lib []))
              (selected [Fixture.case "0090-01" 90 40 "Harvard"]) case_pdfs.
Proof.
  apply (split_pdf_inverted_range_gives_empty_document Fixture.lib "/vol.pdf" "abcde"
           (String.list_ascii_of_string "abcde")).
  - reflexivity.
  - reflexivity.
  - constructor; [|constructor]. intros _. unfold Fixture.case. simpl. lia.
Defined.

(** X5: when [split_pdf] stops on a record with a rejected page index, the
    case PDFs it wrote for the earlier non-excluded records are still on
    disk, under names that did not exist before the call: [split_pdf]
    does not remove them, and its caller never learns their names. *)
Theorem split_pdf_failure_leaves_case_files {Page} (lib : PyLib Page)
    (pdf_path data : string) (pages : list Page)
    (before after : list CaseRecord) (c : CaseRecord) (w : World) :
  fs w !! pdf_path = Some data →
  pdf_read lib data = Ok pages →
  Forall (λ c, provenance_source c ≠ "Fastcase" → indices_accepted (length pages) c)
         before →
  provenance_source c ≠ "Fastcase" →
  ¬ indices_accepted (length pages) c →
  ∃ (left_over : list (string * string)) (w' : World),
    split_pdf lib pdf_path (before ++ c :: after) w
    = (Raise (PyError (IndexError "Sequence index out of range")), w')
    ∧ Forall2 (λ c np, np.1 = file_name c
                       ∧ fs w' !! np.2 = Some (pdf_write lib (case_doc pages c)))
              (selected before) left_over
    ∧ NoDup left_over.*2
    ∧ (∀ p, p ∈ left_over.*2 → fs w !! p = None).
Proof.
  intros Hfile Hread Hbefore Hsel Hbad.
  rewrite (split_pdf_reads lib pdf_path data pages) by done.
  destruct (split_cases_completes lib pages (case_doc pages) before) with
    (case_pdfs := @nil (string * string)) (w := w)
    as (new & w' & Hrun & Hpairs & Hnd & Hfresh & _).
  { eapply Forall_impl; [exact Hbefore|]. intros c' Hc' Hsel'.
    by apply add_pages_case_doc, Hc'. }
  exists new, w'. rewrite split_cases_app, Hrun.
  by rewrite (split_cases_stops lib pages c after _ w' Hsel Hbad).
Qed.

Lemma split_pdf_failure_leaves_case_files_witness :
  ∃ (left_over : list (string * string)) (w' : World),
    split_pdf Fixture.lib "/vol.pdf"
      ([Fixture.case "0001-01" 1 2 "Harvard"] ++ Fixture.case "0005-01" 5 7 "Harvard" :: [])
      (with_fs <["/vol.pdf" := "abcde"]> Fixture.world0)
    = (Raise (PyError (IndexError "Sequence index out of range")), w')
    ∧ Forall2 (λ c np, np.1 = file_name c
                       ∧ fs w' !! np.2
                         = Some (pdf_write Fixture.lib
                                   (case_doc (String.list_ascii_of_string "abcde") c)))
              (selected [Fixture.case "0001-01" 1 2 "Harvard"]) left_over
    ∧ NoDup left_over.*2
    ∧ (∀ p, p ∈ left_over.*2 →
            fs (with_fs <["/vol.pdf" := "abcde"]> Fixture.world0) !! p = None).
Proof.
  apply (split_pdf_failure_leaves_case_files Fixture.lib "/vol.pdf" "abcde"
           (String.list_ascii_of_string "abcde")).
  - reflexivity.
  - reflexivity.
  - constructor; [|constructor]. intros _. unfold indices_accepted, Fixture.case.
    simpl. lia.
  - discriminate.
  - unfold indices_accepted, Fixture.case. simpl. lia.
Defined.

(** X6: whatever its outcome, [split_pdf] only creates temporary files
    under names that were unused: every file that existed keeps its
    content (the source PDF included), nothing is written to the object
    store, and a source that is missing or unreadable leaves no file
    behind. *)
Theorem split_pdf_only_creates_new_files {Page} (lib : PyLib Page)
    (pdf_path : string) (cases_metadata : list CaseRecord) (w : World) :
  store (split_pdf lib pdf_path cases_metadata w).2 = store w
  ∧ (∀ p, is_Some (fs w !! p) →
          fs (split_pdf lib pdf_path cases_metadata w).2 !! p = fs w !! p)
  ∧ (∃ paths,
       trace (split_pdf lib pdf_path cases_metadata w).2
       = trace w ++ (EvTempFile <$> paths)
       ∧ ∀ p, p ∈ paths → fs w !! p = None)
  ∧ ((∀ data, fs w !! pdf_path = Some data → ∃ e, pdf_read lib data = Raise e) →
     (split_pdf lib pdf_path cases_metadata w).2 = w).
Proof.
  unfold split_pdf, PdfReader. step.
  destruct (fs w !! pdf_path) as [data|] eqn:Hfile; simpl.
  - destruct (pdf_read lib data) as [reader|e] eqn:Hread; simpl.
    + pose proof (split_cases_quiet lib reader cases_metadata [] w) as (Hst & Hev).
      split; [done|]. split.
      * intros p Hp.
        destruct (split_cases lib reader cases_metadata [] w) as [r w'] eqn:Hrun.
        by apply (split_cases_frame lib reader cases_metadata [] w r w' Hrun).
      * split; [done|]. intros Hbad. destruct (Hbad data eq_refl) as [e He]. congruence.
    + split; [done|]. split; [done|]. split; [|done].
      exists []. rewrite app_nil_r. split; [done|]. by intros p Hp%elem_of_nil.
  - split; [done|]. split; [done|]. split; [|done].
    exists []. rewrite app_nil_r. split; [done|]. by intros p Hp%elem_of_nil.
Qed.

Lemma selected_nonempty (cases_metadata : list CaseRecord) :
  ¬ Forall (λ c, provenance_source c = "Fastcase") cases_metadata →
  selected cases_metadata ≠ [].
Proof.
  induction cases_metadata as [|c cases IH]; intros Hno.
  - destruct Hno. constructor.
  - unfold selected. rewrite filter_cons.
    destruct (decide (provenance_source c ≠ "Fastcase")) as [Hsel|Hsel]; [done|].
    apply IH. intros Hrest. apply Hno. constructor; [|done].
    by destruct (decide (provenance_source c = "Fastcase")).
Qed.

(** X7: in every successful run of [split_pdf] the returned names are the
    [file_name]s of the non-excluded records, in input order; so when the
    metadata is not all "Fastcase" the result is never empty. *)
Theorem split_pdf_result_names {Page} (lib : PyLib Page)
    (pdf_path : string) (cases_metadata : list CaseRecord)
    (case_pdfs : list (string * string)) (w w' : World) :
  split_pdf lib pdf_path cases_metadata w = (Ok case_pdfs, w') →
  case_pdfs.*1 = file_name <$> selected cases_metadata
  ∧ (¬ Forall (λ c, provenance_source c = "Fastcase") cases_metadata → case_pdfs ≠ []).
Proof.
  intros Hrun.
  assert (Hnames : case_pdfs.*1 = file_name <$> selected cases_metadata).
  { unfold split_pdf in Hrun.
    apply bind_inv in Hrun as [(reader & w1 & Hread & Hrun)|(e & _ & [=])].
    destruct (decide (Forall (λ c, provenance_source c ≠ "Fastcase"
                                   → indices_accepted (length reader) c) cases_metadata))
      as [Hall|Hnot].
    - destruct (split_cases_completes lib reader (case_doc reader) cases_metadata) with
        (case_pdfs := @nil (string * string)) (w := w1) as (new & w2 & Hrun2 & Hpairs & _).
      { eapply Forall_impl; [exact Hall|]. intros c Hc Hsel.
        by apply add_pages_case_doc, Hc. }
      rewrite Hrun in Hrun2. injection Hrun2 as -> _. simpl.
      clear -Hpairs. induction Hpairs as [|c [name p] cs nps [Hn _] _ IH]; [done|].
      rewrite !fmap_cons. simpl in Hn. by rewrite Hn, IH.
    - destruct (split_cases_not_accepted lib reader cases_metadata Hnot [] w1) as [w2 Hbad].
      congruence. }
  split; [done|]. intros Hsome Hnil. subst case_pdfs. simpl in Hnames.
  apply selected_nonempty in Hsome. symmetry in Hnames.
  by apply fmap_nil_inv in Hnames.
Qed.

Lemma split_pdf_result_names_witness :
  [("0001-01", "/tmp/tmp0.pdf")].*1
  = file_name <$> selected [Fixture.case "0001-01" 3 5 "Harvard"]
  ∧ (¬ Forall (λ c, provenance_source c = "Fastcase")
               [Fixture.case "0001-01" 3 5 "Harvard"] →
     [("0001-01", "/tmp/tmp0.pdf")] ≠ []).
Proof.
  apply (split_pdf_result_names Fixture.lib "/vol.pdf"
           [Fixture.case "0001-01" 3 5 "Harvard"] [("0001-01", "/tmp/tmp0.pdf")]
           (with_fs <["/vol.pdf" := "abcde"]> Fixture.world0)
           {| fs := {["/vol.pdf" := "abcde"; "/tmp/tmp0.pdf" := "cde"]};
              store := ∅; trace := [EvTempFile "/tmp/tmp0.pdf"] |}).
  vm_compute. reflexivity.
Defined.

(** ** More on the upload stage *)

(** The store after one item: the item's file is written to its key when
    the file exists and the write does not fail. *)
Definition store_after_item (s3_client : S3Client) (bucket : string) (volume : Volume)
    (files : gmap string string) (objects : gmap (string * string) string)
    (item : string * string) : gmap (string * string) string :=
  match files !! item.2 with
  | Some data =>
      match upload_error s3_client bucket (upload_key volume item.1) data with
      | None => <[(bucket, upload_key volume item.1) := data]> objects
      | Some _ => objects
      end
  | None => objects
  end.

(** The store after a batch, from the local files at its start. *)
Definition store_after_batch (s3_client : S3Client) (bucket : string) (volume : Volume)
    (files : gmap string string) (objects : gmap (string * string) string)
    (case_pdfs : list (string * string)) : gmap (string * string) string :=
  foldl (store_after_item s3_client bucket volume files) objects case_pdfs.

Lemma upload_key_inj (volume : Volume) : Inj (=) (=) (upload_key volume).
Proof.
  intros n1 n2 H. unfold upload_key in H.
  apply (inj (String.app _)) in H. apply (inj (String.app "/")) in H.
  apply (inj (String.app _)) in H. apply (inj (String.app "/case-pdfs/")) in H.
  by apply string_app_inj_r in H.
Qed.

Section upload_more.
Variable R2_SPLIT_PDFS_BUCKET : string.
Variables (volume : Volume) (s3_client : S3Client).

Local Abbreviation bucket' := (WRITE_BUCKET R2_SPLIT_PDFS_BUCKET).

(** One turn of the loop, whatever the state of the item's file. *)
Lemma upload_turn (case_name case_path : string) (w : World) :
  ∃ r w1,
    try_finally
      (try_except
         (s3_upload_file s3_client case_path bucket' (upload_key volume case_name);;
          print ("Uploaded " +:+ upload_key volume case_name +:+ " to " +:+ bucket'))
         (λ e, print ("Error uploading case PDF " +:+ case_name +:+ " for volume "
                      +:+ volume_folder volume +:+ " of " +:+ reporter_slug volume
                      +:+ ": " +:+ str_exc e)))
      (os_unlink case_path) w
    = (r, w1)
    ∧ r = match fs w !! case_path with
          | Some _ => Ok tt
          | None => Raise (PyError (FileNotFoundError
                                      ("No such file or directory: " +:+ case_path)))
          end
    ∧ fs w1 = delete case_path (fs w)
    ∧ store w1 = store_after_item s3_client bucket' volume (fs w) (store w)
                   (case_name, case_path)
    ∧ trace w1 = trace w ++ upload_events s3_client bucket' volume (fs w)
                              (case_name, case_path).
Proof.
  unfold s3_upload_file, os_unlink, upload_events, store_after_item. step.
  destruct (fs w !! case_path) as [data|] eqn:Hfile; simpl.
  - destruct (upload_error s3_client bucket' _ data) as [e|]; simpl;
      rewrite Hfile; eexists _, _; (split; [reflexivity|]); simpl;
      rewrite <- ?app_assoc; done.
  - rewrite Hfile. eexists _, _. split; [reflexivity|]. simpl.
    rewrite <- ?app_assoc. split; [done|]. split; [|done].
    symmetry. by apply delete_id.
Qed.

Lemma upload_case_pdfs_cons (case_name case_path : string) (rest : list (string * string))
    (w : World) :
  ∃ w1,
    fs w1 = delete case_path (fs w)
    ∧ store w1 = store_after_item s3_client bucket' volume (fs w) (store w)
                   (case_name, case_path)
    ∧ trace w1 = trace w ++ upload_events s3_client bucket' volume (fs w)
                              (case_name, case_path)
    ∧ upload_case_pdfs R2_SPLIT_PDFS_BUCKET ((case_name, case_path) :: rest)
        volume s3_client w
      = match fs w !! case_path with
        | Some _ => upload_case_pdfs R2_SPLIT_PDFS_BUCKET rest volume s3_client w1
        | None => (Raise (PyError (FileNotFoundError
                                     ("No such file or directory: " +:+ case_path))), w1)
        end.
Proof.
  destruct (upload_turn case_name case_path w) as (r & w1 & Hrun & -> & Hfs & Hst & Htr).
  exists w1. split; [done|]. split; [done|]. split; [done|].
  cbn [upload_case_pdfs]. fold (upload_key volume case_name).
  unfold mbind at 1. unfold M_bind at 1. rewrite Hrun.
  by destruct (fs w !! case_path).
Qed.

Lemma store_after_batch_ext (files files' : gmap string string)
    (items : list (string * string)) :
  (∀ p, p ∈ items.*2 → files' !! p = files !! p) →
  ∀ objects,
    store_after_batch s3_client bucket' volume files' objects items
    = store_after_batch s3_client bucket' volume files objects items.
Proof.
  unfold store_after_batch.
  induction items as [|[name p] items IH]; intros Hsame objects; [done|].
  cbn [foldl].
  rewrite IH by (intros q Hq; apply Hsame; simpl; by apply elem_of_cons; right).
  f_equal. unfold store_after_item. simpl.
  rewrite (Hsame p); [done|]. simpl. by apply elem_of_cons; left.
Qed.

(** The store after a batch whose items each have their own file. *)
Lemma upload_case_pdfs_store (case_pdfs : list (string * string)) :
  NoDup case_pdfs.*2 →
  ∀ w, (∀ p, p ∈ case_pdfs.*2 → is_Some (fs w !! p)) →
  store (upload_case_pdfs R2_SPLIT_PDFS_BUCKET case_pdfs volume s3_client w).2
  = store_after_batch s3_client bucket' volume (fs w) (store w) case_pdfs.
Proof.
  induction case_pdfs as [|[name p] items IH]; intros Hnd w Hfiles; [done|].
  simpl in Hnd. apply NoDup_cons in Hnd as [Hp Hnd].
  destruct (Hfiles p) as [data Hdata]; [simpl; by apply elem_of_cons; left|].
  destruct (upload_case_pdfs_cons name p items w) as (w1 & Hfs & Hst & _ & ->).
  rewrite Hdata. rewrite IH; [|done|].
  - rewrite Hst, Hfs. unfold store_after_batch at 2. cbn [foldl].
    apply store_after_batch_ext. intros q Hq. apply lookup_delete_ne. by intros ->.
  - intros q Hq. rewrite Hfs, lookup_delete_ne by (by intros ->).
    apply Hfiles. simpl. by apply elem_of_cons; right.
Qed.

(** A batch in which no item has the key [k] leaves [k] as it was. *)
Lemma store_after_batch_other (files : gmap string string) (k : string * string)
    (items : list (string * string)) :
  (∀ name, name ∈ items.*1 → k ≠ (bucket', upload_key volume name)) →
  ∀ objects,
    store_after_batch s3_client bucket' volume files objects items !! k = objects !! k.
Proof.
  unfold store_after_batch.
  induction items as [|[name p] items IH]; intros Hk objects; [done|].
  cbn [foldl].
  rewrite IH by (intros n Hn; apply Hk; simpl; by apply elem_of_cons; right).
  unfold store_after_item. simpl.
  destruct (files !! p) as [data|]; [|done].
  destruct (upload_error _ _ _ data); [done|].
  apply lookup_insert_ne. intros <-. eapply Hk; [|done]. simpl. by apply elem_of_cons; left.
Qed.


End upload_more.

(** X8: after a batch whose items each have their own existing temporary
    file, the store holds exactly the successful writes applied in batch
    order to what it held before; so the file of an item whose write
    succeeded is what its key holds afterwards unless a later item has the
    same name, also when an earlier item has. *)
Theorem upload_case_pdfs_store_after_batch
    (R2_SPLIT_PDFS_BUCKET : string) (volume : Volume) (s3_client : S3Client)
    (before after : list (string * string)) (name path data : string) (w : World) :
  NoDup (before ++ (name, path) :: after).*2 →
  (∀ p, p ∈ (before ++ (name, path) :: after).*2 → is_Some (fs w !! p)) →
  fs w !! path = Some data →
  upload_error s3_client (WRITE_BUCKET R2_SPLIT_PDFS_BUCKET) (upload_key volume name) data
  = None →
  name ∉ after.*1 →
  store (upload_case_pdfs R2_SPLIT_PDFS_BUCKET (before ++ (name, path) :: after)
           volume s3_client w).2
  = store_after_batch s3_client (WRITE_BUCKET R2_SPLIT_PDFS_BUCKET) volume (fs w) (store w)
      (before ++ (name, path) :: after)
  ∧ store (upload_case_pdfs R2_SPLIT_PDFS_BUCKET (before ++ (name, path) :: after)
             volume s3_client w).2
    !! (WRITE_BUCKET R2_SPLIT_PDFS_BUCKET, upload_key volume name)
    = Some data.
Proof.
  intros Hnd Hfiles Hdata Herr Hlater.
  rewrite upload_case_pdfs_store by done. split; [done|].
  unfold store_after_batch. rewrite foldl_app. cbn [foldl].
  pose proof (store_after_batch_other R2_SPLIT_PDFS_BUCKET volume s3_client (fs w)
                (WRITE_BUCKET R2_SPLIT_PDFS_BUCKET, upload_key volume name) after)
    as Hother.
  unfold store_after_batch in Hother. rewrite Hother.
  - unfold store_after_item. simpl. rewrite Hdata, Herr. apply lookup_insert_eq.
  - intros n Hn [= Heq]. apply upload_key_inj in Heq. by subst n.
Qed.

Lemma upload_case_pdfs_store_after_batch_witness :
  store (upload_case_pdfs "split"
           ([("0001-01", "/tmp/a.pdf")] ++ ("0001-01", "/tmp/b.pdf") :: [])
           (Fixture.vol "a2d" "1" None) (Fixture.client "") Fixture.upload_world).2
  = store_after_batch (Fixture.client "") (WRITE_BUCKET "split")
      (Fixture.vol "a2d" "1" None) (fs Fixture.upload_world) (store Fixture.upload_world)
      ([("0001-01", "/tmp/a.pdf")] ++ ("0001-01", "/tmp/b.pdf") :: [])
  ∧ store (upload_case_pdfs "split"
             ([("0001-01", "/tmp/a.pdf")] ++ ("0001-01", "/tmp/b.pdf") :: [])
             (Fixture.vol "a2d" "1" None) (Fixture.client "") Fixture.upload_world).2
    !! (WRITE_BUCKET "split", upload_key (Fixture.vol "a2d" "1" None) "0001-01")
    = Some "ab".
Proof.
  apply (upload_case_pdfs_store_after_batch "split" (Fixture.vol "a2d" "1" None)
           (Fixture.client "") [("0001-01", "/tmp/a.pdf")] [] "0001-01" "/tmp/b.pdf" "ab"
           Fixture.upload_world).
  - apply (bool_decide_unpack _). vm_compute. exact I.
  - intros p Hp. simpl in Hp.
    apply elem_of_cons in Hp as [->|Hp]; [by eexists|].
    apply elem_of_cons in Hp as [->|Hp%elem_of_nil]; [by eexists|done].
  - reflexivity.
  - reflexivity.
  - simpl. by intros H%elem_of_nil.
Defined.

(** X9: whatever its outcome, [upload_case_pdfs] touches no local file
    other than those its batch names, changes no object other than those
    at the keys of its batch, and never removes an object. *)
Theorem upload_case_pdfs_touches_only_its_batch
    (R2_SPLIT_PDFS_BUCKET : string) (volume : Volume) (s3_client : S3Client)
    (case_pdfs : list (string * string)) (w : World) :
  (∀ p, p ∉ case_pdfs.*2 →
     fs (upload_case_pdfs R2_SPLIT_PDFS_BUCKET case_pdfs volume s3_client w).2 !! p
     = fs w !! p)
  ∧ (∀ k, (∀ name, name ∈ case_pdfs.*1 →
                   k ≠ (WRITE_BUCKET R2_SPLIT_PDFS_BUCKET, upload_key volume name)) →
     store (upload_case_pdfs R2_SPLIT_PDFS_BUCKET case_pdfs volume s3_client w).2 !! k
     = store w !! k)
  ∧ (∀ k, is_Some (store w !! k) →
     is_Some (store (upload_case_pdfs R2_SPLIT_PDFS_BUCKET case_pdfs volume s3_client w).2
              !! k)).
Proof.
  revert w. induction case_pdfs as [|[name p] items IH]; intros w; [done|].
  destruct (upload_case_pdfs_cons R2_SPLIT_PDFS_BUCKET volume s3_client name p items w)
    as (w1 & Hfs & Hst & _ & ->).
  destruct (IH w1) as (IHfs & IHst & IHmono).
  assert (Hfs1 : ∀ q, q ≠ p → fs w1 !! q = fs w !! q).
  { intros q Hq. rewrite Hfs. by apply lookup_delete_ne. }
  assert (Hst1 : ∀ k, k ≠ (WRITE_BUCKET R2_SPLIT_PDFS_BUCKET, upload_key volume name) →
                      store w1 !! k = store w !! k).
  { intros k Hk. rewrite Hst. unfold store_after_item. simpl.
    destruct (fs w !! p) as [data|]; [|done].
    destruct (upload_error _ _ _ data); [done|]. by apply lookup_insert_ne. }
  assert (Hmono1 : ∀ k, is_Some (store w !! k) → is_Some (store w1 !! k)).
  { intros k Hk. rewrite Hst. unfold store_after_item. simpl.
    destruct (fs w !! p) as [data|]; [|done].
    destruct (upload_error _ _ _ data); [done|].
    destruct (decide ((WRITE_BUCKET R2_SPLIT_PDFS_BUCKET, upload_key volume name) = k))
      as [<-|Hne]; [rewrite lookup_insert_eq; by eexists|by rewrite lookup_insert_ne]. }
  split; [|split].
  - intros q Hq. simpl in Hq. apply not_elem_of_cons in Hq as [Hne Hq].
    destruct (fs w !! p); simpl; [rewrite IHfs by done|]; by apply Hfs1.
  - intros k Hk.
    assert (k ≠ (WRITE_BUCKET R2_SPLIT_PDFS_BUCKET, upload_key volume name)).
    { apply Hk. simpl. by apply elem_of_cons; left. }
    destruct (fs w !! p); simpl; [rewrite IHst|]; try by apply Hst1.
    intros n Hn. apply Hk. simpl. by apply elem_of_cons; right.
  - intros k Hk. destruct (fs w !! p); simpl; [apply IHmono|]; by apply Hmono1.
Qed.



(** ** More on the volume processor *)

(** The world in which the [try] block of [process_volume] starts: the
    temporary file exists under a fresh name and holds the downloaded
    PDF. *)
Definition world_after_download (R2_STATIC_BUCKET : string) (volume : Volume)
    (body : string) (w1 : World) : World :=
  {| fs := <[fresh_tmp ".pdf" (fs w1) := body]> (fs w1);
     store := store w1;
     trace := trace w1
              ++ [EvTempFile (fresh_tmp ".pdf" (fs w1));
                  EvDownloadFile (READ_BUCKET R2_STATIC_BUCKET) (pdf_key volume)
                                 (fresh_tmp ".pdf" (fs w1))] |}.

Section processor_more.
Context {Page : Type}.
Variable lib : PyLib Page.
Variables R2_STATIC_BUCKET R2_SPLIT_PDFS_BUCKET : string.
Variables (volume : Volume) (s3_client : S3Client).

(** [process_volume] up to the [try] block, when there is something to
    split and the download succeeds. *)
Lemma process_volume_downloaded (cases_metadata : list CaseRecord) (body : string)
    (w w1 : World) :
  get_cases_metadata lib s3_client (READ_BUCKET R2_STATIC_BUCKET) volume w
  = (Ok (Some cases_metadata), w1) →
  ¬ Forall (λ c, provenance_source c = "Fastcase") cases_metadata →
  download_body s3_client (READ_BUCKET R2_STATIC_BUCKET) (pdf_key volume) = Ok body →
  process_volume lib R2_STATIC_BUCKET R2_SPLIT_PDFS_BUCKET volume s3_client w
  = try_finally
      (try_except
         (case_pdfs ← split_pdf lib (fresh_tmp ".pdf" (fs w1)) cases_metadata;
          print ("Split " +:+ pretty (length case_pdfs) +:+ " case PDFs");;
          (if bool_decide (length case_pdfs ≠ 0)
           then upload_case_pdfs R2_SPLIT_PDFS_BUCKET case_pdfs volume s3_client
           else mret tt);;
          mret (Some ("Processed " +:+ pretty (length case_pdfs)
                      +:+ " cases for volume " +:+ volume_folder volume)))
         (λ e,
            print ("Error processing volume " +:+ volume_folder volume +:+ " of "
                   +:+ reporter_slug volume +:+ ": " +:+ str_exc e);;
            mret (Some ("Error processing volume " +:+ volume_folder volume
                        +:+ ": " +:+ str_exc e))))
      (os_unlink (fresh_tmp ".pdf" (fs w1)))
      (world_after_download R2_STATIC_BUCKET volume body w1).
Proof.
  intros Hload Hsome Hdown.
  unfold process_volume. unfold mbind at 1. unfold M_bind at 1. rewrite Hload.
  destruct cases_metadata as [|c cases]; [by destruct Hsome|].
  destruct (forallb _ (c :: cases)) eqn:Hall.
  { apply forallb_Fastcase in Hall. by destruct Hsome. }
  cbn [negb]. cbv iota.
  unfold mbind at 1. unfold M_bind at 1. unfold NamedTemporaryFile at 1.
  cbv zeta iota beta.
  unfold mbind at 1. unfold M_bind at 1.
  unfold download_pdf at 1. fold (pdf_key volume).
  unfold try_except at 1. unfold s3_download_file at 1. rewrite Hdown.
  cbv iota beta.
  f_equal. unfold world_after_download, emit, with_fs. simpl.
  rewrite insert_insert_eq. by rewrite <- app_assoc.
Qed.

Lemma world_after_download_file (body : string) (w1 : World) :
  fs (world_after_download R2_STATIC_BUCKET volume body w1) !! fresh_tmp ".pdf" (fs w1)
  = Some body.
Proof. apply lookup_insert_eq. Qed.

Lemma world_after_download_fresh (body : string) (w1 : World) (q : string) :
  fs (world_after_download R2_STATIC_BUCKET volume body w1) !! q = None →
  q ≠ fresh_tmp ".pdf" (fs w1) ∧ fs w1 !! q = None.
Proof.
  simpl. intros Hq.
  destruct (decide (q = fresh_tmp ".pdf" (fs w1))) as [->|Hne].
  - by rewrite lookup_insert_eq in Hq.
  - by rewrite lookup_insert_ne in Hq.
Qed.

End processor_more.

Lemma case_files_exist {Page} (lib : PyLib Page) (doc : CaseRecord → list Page)
    (files : gmap string string) (cases : list CaseRecord)
    (case_pdfs : list (string * string)) :
  Forall2 (λ c np, np.1 = file_name c ∧ files !! np.2 = Some (pdf_write lib (doc c)))
          cases case_pdfs →
  (∀ q, q ∈ case_pdfs.*2 → is_Some (files !! q))
  ∧ (∀ c, c ∈ cases →
       ∃ p, (file_name c, p) ∈ case_pdfs ∧ files !! p = Some (pdf_write lib (doc c))).
Proof.
  induction 1 as [|c [name p] cs nps [Hn Hf] _ [IH1 IH2]]; simpl in *.
  - split; [by intros q Hq%elem_of_nil|by intros c Hc%elem_of_nil].
  - subst name. split.
    + intros q Hq. apply elem_of_cons in Hq as [->|Hq]; [by eexists|by apply IH1].
    + intros c' Hc'. apply elem_of_cons in Hc' as [->|Hc'].
      * exists p. split; [by apply elem_of_cons; left|done].
      * destruct (IH2 c' Hc') as (q & Hq & Hfq). exists q.
        split; [by apply elem_of_cons; right|done].
Qed.

Lemma get_cases_metadata_keeps {Page} (lib : PyLib Page) (s3_client : S3Client)
    (bucket : string) (volume : Volume) (w w1 : World) r :
  get_cases_metadata lib s3_client bucket volume w = (r, w1) →
  r = Ok (load_spec lib s3_client bucket volume)
  ∧ fs w1 = fs w ∧ store w1 = store w.
Proof.
  intros Hload.
  destruct (get_cases_metadata_run lib s3_client bucket volume w) as (events & Hrun & _).
  rewrite Hload in Hrun. by injection Hrun as -> ->.
Qed.

(** X11: when there is something to split, the PDF downloads and parses,
    and every non-excluded record's page loop completes, [process_volume]
    returns "Processed M cases for volume V" with [M] the number of
    non-excluded records (at least one), whether or not the uploads
    succeed; the local disk is then exactly as it was before the call, no
    object of the store is lost, and every record whose write did not
    fail has an object at its key. *)
Theorem process_volume_success_summary {Page} (lib : PyLib Page)
    (R2_STATIC_BUCKET R2_SPLIT_PDFS_BUCKET : string) (volume : Volume)
    (s3_client : S3Client) (cases_metadata : list CaseRecord) (body : string)
    (pages : list Page) (w w1 : World) :
  get_cases_metadata lib s3_client (READ_BUCKET R2_STATIC_BUCKET) volume w
  = (Ok (Some cases_metadata), w1) →
  ¬ Forall (λ c, provenance_source c = "Fastcase") cases_metadata →
  download_body s3_client (READ_BUCKET R2_STATIC_BUCKET) (pdf_key volume) = Ok body →
  pdf_read lib body = Ok pages →
  Forall (λ c, provenance_source c ≠ "Fastcase" → indices_accepted (length pages) c)
         cases_metadata →
  ∃ w',
    process_volume lib R2_STATIC_BUCKET R2_SPLIT_PDFS_BUCKET volume s3_client w
    = (Ok (Some ("Processed " +:+ pretty (length (selected cases_metadata))
                 +:+ " cases for volume " +:+ volume_folder volume)), w')
    ∧ (1 ≤ length (selected cases_metadata))%nat
    ∧ fs w' = fs w
    ∧ (∀ k, is_Some (store w !! k) → is_Some (store w' !! k))
    ∧ (∀ c, c ∈ selected cases_metadata →
         upload_error s3_client (WRITE_BUCKET R2_SPLIT_PDFS_BUCKET)
           (upload_key volume (file_name c)) (pdf_write lib (case_doc pages c)) = None →
         is_Some (store w' !! (WRITE_BUCKET R2_SPLIT_PDFS_BUCKET,
                               upload_key volume (file_name c)))).
Proof.
  intros Hload Hsome Hdown Hread Hacc.
  rewrite (process_volume_downloaded lib _ _ _ _ cases_metadata body w w1) by done.
  destruct (get_cases_metadata_keeps _ _ _ _ _ _ _ Hload) as (_ & Hfs1 & Hst1).
  set (p := fresh_tmp ".pdf" (fs w1)).
  set (w2 := world_after_download R2_STATIC_BUCKET volume body w1).
  pose proof (world_after_download_file R2_STATIC_BUCKET volume body w1) as Hp2.
  fold p in Hp2. fold w2 in Hp2.
  destruct (split_cases_completes lib pages (case_doc pages) cases_metadata) with
    (case_pdfs := @nil (string * string)) (w := w2)
    as (new & w3 & Hrun & Hpairs & Hnd & Hfresh & Hkeep & Hst3 & _).
  { eapply Forall_impl; [exact Hacc|]. intros c Hc Hsel.
    by apply add_pages_case_doc, Hc. }
  simpl in Hrun.
  rewrite <- (split_pdf_reads lib p body pages cases_metadata w2 Hp2 Hread) in Hrun.
  pose proof (Forall2_length _ _ _ Hpairs) as Hlen.
  assert (Hpos : (1 ≤ length (selected cases_metadata))%nat).
  { apply selected_nonempty in Hsome. destruct (selected cases_metadata); [done|simpl; lia]. }
  destruct (case_files_exist lib (case_doc pages) (fs w3) _ _ Hpairs) as [Hexist Hdocs].
  assert (Hpnew : p ∉ new.*2).
  { intros Hin. apply Hfresh in Hin. congruence. }
  set (w3' := emit (EvPrint ("Split " +:+ pretty (length new) +:+ " case PDFs")) w3).
  destruct (upload_case_pdfs_run R2_SPLIT_PDFS_BUCKET volume s3_client new Hnd w3')
    as (w4 & Hup & _ & Hfs4 & Hmono & Hstored); [exact Hexist|].
  assert (Hp4 : fs w4 !! p = Some body).
  { rewrite Hfs4, decide_False by done. simpl. by rewrite Hkeep. }
  eexists.
  unfold try_finally, try_except. unfold mbind at 1. unfold M_bind at 1. rewrite Hrun.
  unfold mbind at 1. unfold M_bind at 1. unfold print at 1. fold w3'.
  rewrite bool_decide_eq_true_2 by lia.
  unfold mbind at 1. unfold M_bind at 1. rewrite Hup.
  unfold mret, M_ret, os_unlink. rewrite Hp4. rewrite <- Hlen.
  split; [reflexivity|]. split; [done|]. simpl. split; [|split].
  - apply map_eq. intros q. rewrite <- Hfs1.
    destruct (decide (q = p)) as [->|Hne].
    + rewrite lookup_delete_eq. symmetry. apply fresh_tmp_fresh.
    + rewrite lookup_delete_ne by done. rewrite Hfs4.
      destruct (decide (q ∈ new.*2)) as [Hin|Hout].
      * apply Hfresh in Hin. subst w2. simpl in Hin.
        by rewrite lookup_insert_ne in Hin.
      * simpl. rewrite Hkeep by done. subst w2. simpl. by rewrite lookup_insert_ne.
  - intros k Hk. apply Hmono. simpl. rewrite Hst3. subst w2. simpl. by rewrite Hst1.
  - intros c Hc Herr. destruct (Hdocs c Hc) as (q & Hq & Hdoc).
    by apply (Hstored (file_name c) q (pdf_write lib (case_doc pages c))).
Qed.

Lemma process_volume_success_summary_witness :
  ∃ w',
    process_volume Fixture.lib "static" "split" (Fixture.vol "a2d" "1" None)
      (Fixture.client "three-cases") Fixture.world0
    = (Ok (Some ("Processed "
                 +:+ pretty (length (selected
                       [Fixture.case "0001-01" 1 2 "Harvard";
                        Fixture.case "0003-01" 3 3 "Fastcase";
                        Fixture.case "0004-01" 4 5 "Harvard"]))
                 +:+ " cases for volume " +:+ volume_folder (Fixture.vol "a2d" "1" None))),
       w')
    ∧ (1 ≤ length (selected [Fixture.case "0001-01" 1 2 "Harvard";
                             Fixture.case "0003-01" 3 3 "Fastcase";
                             Fixture.case "0004-01" 4 5 "Harvard"]))%nat
    ∧ fs w' = fs Fixture.world0
    ∧ (∀ k, is_Some (store Fixture.world0 !! k) → is_Some (store w' !! k))
    ∧ (∀ c, c ∈ selected [Fixture.case "0001-01" 1 2 "Harvard";
                          Fixture.case "0003-01" 3 3 "Fastcase";
                          Fixture.case "0004-01" 4 5 "Harvard"] →
         upload_error (Fixture.client "three-cases") (WRITE_BUCKET "split")
           (upload_key (Fixture.vol "a2d" "1" None) (file_name c))
           (pdf_write Fixture.lib (case_doc (String.list_ascii_of_string "abcde") c))
         = None →
         is_Some (store w' !! (WRITE_BUCKET "split",
                               upload_key (Fixture.vol "a2d" "1" None) (file_name c)))).
Proof.
  apply (process_volume_success_summary Fixture.lib "static" "split"
           (Fixture.vol "a2d" "1" None) (Fixture.client "three-cases")
           [Fixture.case "0001-01" 1 2 "Harvard"; Fixture.case "0003-01" 3 3 "Fastcase";
            Fixture.case "0004-01" 4 5 "Harvard"]
           "abcde" (String.list_ascii_of_string "abcde") Fixture.world0
           {| fs := ∅; store := ∅;
              trace := [EvGetObject "static" "a2d/1.zip";
                        EvGetObject "static" "a2d/1/CasesMetadata.json"] |}).
  - vm_compute. reflexivity.
  - intros Hall. apply Forall_cons in Hall as [Hc _]. discriminate.
  - reflexivity.
  - reflexivity.
  - constructor; [|constructor; [|constructor; [|constructor]]];
      intros _; unfold indices_accepted, Fixture.case; simpl; lia.
Defined.

(** X12: when the downloaded object cannot be read as a PDF,
    [process_volume] returns "Error processing volume V: <message>" with
    the message of the reader's exception; nothing is uploaded, and the
    local disk and the store are as before the call. *)
Theorem process_volume_unreadable_pdf {Page} (lib : PyLib Page)
    (R2_STATIC_BUCKET R2_SPLIT_PDFS_BUCKET : string) (volume : Volume)
    (s3_client : S3Client) (cases_metadata : list CaseRecord) (body : string)
    (e : PyExc) (w w1 : World) :
  get_cases_metadata lib s3_client (READ_BUCKET R2_STATIC_BUCKET) volume w
  = (Ok (Some cases_metadata), w1) →
  ¬ Forall (λ c, provenance_source c = "Fastcase") cases_metadata →
  download_body s3_client (READ_BUCKET R2_STATIC_BUCKET) (pdf_key volume) = Ok body →
  pdf_read lib body = Raise e →
  ∃ w',
    process_volume lib R2_STATIC_BUCKET R2_SPLIT_PDFS_BUCKET volume s3_client w
    = (Ok (Some ("Error processing volume " +:+ volume_folder volume
                 +:+ ": " +:+ str_exc (PyError e))), w')
    ∧ fs w' = fs w
    ∧ store w' = store w
    ∧ trace w'
      = trace w1
        ++ [EvTempFile (fresh_tmp ".pdf" (fs w1));
            EvDownloadFile (READ_BUCKET R2_STATIC_BUCKET) (pdf_key volume)
                           (fresh_tmp ".pdf" (fs w1));
            EvPrint ("Error processing volume " +:+ volume_folder volume +:+ " of "
                     +:+ reporter_slug volume +:+ ": " +:+ str_exc (PyError e));
            EvUnlink (fresh_tmp ".pdf" (fs w1))].
Proof.
  intros Hload Hsome Hdown Hread.
  rewrite (process_volume_downloaded lib _ _ _ _ cases_metadata body w w1) by done.
  destruct (get_cases_metadata_keeps _ _ _ _ _ _ _ Hload) as (_ & Hfs1 & Hst1).
  pose proof (world_after_download_file R2_STATIC_BUCKET volume body w1) as Hp2.
  unfold try_finally, try_except, split_pdf, PdfReader.
  unfold mbind at 1. unfold M_bind at 1. unfold mbind at 1. unfold M_bind at 1.
  rewrite Hp2. unfold lift_py. rewrite Hread.
  unfold mbind, M_bind, mret, M_ret, print, os_unlink. simpl.
  rewrite lookup_insert_eq. eexists. split; [reflexivity|]. simpl.
  split; [|split; [done|by rewrite <- !app_assoc]].
  rewrite <- Hfs1. apply delete_insert_id, fresh_tmp_fresh.
Qed.

Lemma process_volume_unreadable_pdf_witness :
  ∃ w',
    process_volume Fixture.lib "static" "split" (Fixture.vol "a2d" "1" None)
      {| get_object := get_object (Fixture.client "one-case");
         download_body := λ _ _, Ok "";
         upload_error := upload_error (Fixture.client "one-case") |}
      Fixture.world0
    = (Ok (Some ("Error processing volume " +:+ volume_folder (Fixture.vol "a2d" "1" None)
                 +:+ ": " +:+ str_exc (PyError (OtherError "Cannot read an empty file")))),
       w')
    ∧ fs w' = fs Fixture.world0
    ∧ store w' = store Fixture.world0
    ∧ trace w'
      = trace {| fs := ∅; store := ∅;
                 trace := [EvGetObject "static" "a2d/1.zip";
                           EvGetObject "static" "a2d/1/CasesMetadata.json"] |}
        ++ [EvTempFile (fresh_tmp ".pdf" ∅);
            EvDownloadFile (READ_BUCKET "static") (pdf_key (Fixture.vol "a2d" "1" None))
                           (fresh_tmp ".pdf" ∅);
            EvPrint ("Error processing volume "
                     +:+ volume_folder (Fixture.vol "a2d" "1" None) +:+ " of "
                     +:+ reporter_slug (Fixture.vol "a2d" "1" None) +:+ ": "
                     +:+ str_exc (PyError (OtherError "Cannot read an empty file")));
            EvUnlink (fresh_tmp ".pdf" ∅)].
Proof.
  apply (process_volume_unreadable_pdf Fixture.lib "static" "split"
           (Fixture.vol "a2d" "1" None) _
           [Fixture.case "0001-01" 3 5 "Harvard"] "" _ Fixture.world0
           {| fs := ∅; store := ∅;
              trace := [EvGetObject "static" "a2d/1.zip";
                        EvGetObject "static" "a2d/1/CasesMetadata.json"] |}).
  - vm_compute. reflexivity.
  - intros Hall. apply Forall_cons in Hall as [Hc _]. discriminate.
  - reflexivity.
  - reflexivity.
Defined.

Lemma Forall2_impl_elem {A B} (P Q : A → B → Prop) (l : list A) (k : list B) :
  Forall2 P l k → (∀ x y, y ∈ k → P x y → Q x y) → Forall2 Q l k.
Proof.
  induction 1 as [|x y l k Hxy _ IH]; intros Himpl; constructor.
  - apply Himpl; [by apply elem_of_cons; left|done].
  - apply IH. intros x' y' Hy'. apply Himpl. by apply elem_of_cons; right.
Qed.

(** X13: when a non-excluded record has a rejected page index,
    [process_volume] returns "Error processing volume V: Sequence index
    out of range"; the store is unchanged, so nothing is uploaded for the
    records split before the failing one either; the temporary source PDF
    is removed, but the case PDFs already written for those records stay
    on disk, under names that did not exist before, and they are all that
    differs on disk. *)
Theorem process_volume_rejected_index {Page} (lib : PyLib Page)
    (R2_STATIC_BUCKET R2_SPLIT_PDFS_BUCKET : string) (volume : Volume)
    (s3_client : S3Client) (before after : list CaseRecord) (c : CaseRecord)
    (body : string) (pages : list Page) (w w1 : World) :
  get_cases_metadata lib s3_client (READ_BUCKET R2_STATIC_BUCKET) volume w
  = (Ok (Some (before ++ c :: after)), w1) →
  download_body s3_client (READ_BUCKET R2_STATIC_BUCKET) (pdf_key volume) = Ok body →
  pdf_read lib body = Ok pages →
  Forall (λ c, provenance_source c ≠ "Fastcase" → indices_accepted (length pages) c)
         before →
  provenance_source c ≠ "Fastcase" →
  ¬ indices_accepted (length pages) c →
  ∃ (left_over : list (string * string)) (w' : World),
    process_volume lib R2_STATIC_BUCKET R2_SPLIT_PDFS_BUCKET volume s3_client w
    = (Ok (Some ("Error processing volume " +:+ volume_folder volume
                 +:+ ": Sequence index out of range")), w')
    ∧ store w' = store w
    ∧ Forall2 (λ c np, np.1 = file_name c
                       ∧ fs w' !! np.2 = Some (pdf_write lib (case_doc pages c)))
              (selected before) left_over
    ∧ NoDup left_over.*2
    ∧ (∀ q, q ∈ left_over.*2 → fs w !! q = None)
    ∧ (∀ q, q ∉ left_over.*2 → fs w' !! q = fs w !! q).
Proof.
  intros Hload Hdown Hread Hbefore Hsel Hbad.
  assert (Hsome : ¬ Forall (λ c, provenance_source c = "Fastcase") (before ++ c :: after)).
  { intros Hall. apply Forall_app in Hall as [_ Hall].
    apply Forall_cons in Hall as [Hc _]. done. }
  rewrite (process_volume_downloaded lib _ _ _ _ _ body w w1) by done.
  destruct (get_cases_metadata_keeps _ _ _ _ _ _ _ Hload) as (_ & Hfs1 & Hst1).
  set (p := fresh_tmp ".pdf" (fs w1)).
  set (w2 := world_after_download R2_STATIC_BUCKET volume body w1).
  pose proof (world_after_download_file R2_STATIC_BUCKET volume body w1) as Hp2.
  fold p in Hp2. fold w2 in Hp2.
  destruct (split_cases_completes lib pages (case_doc pages) before) with
    (case_pdfs := @nil (string * string)) (w := w2)
    as (new & w3 & Hrun & Hpairs & Hnd & Hfresh & Hkeep & Hst3 & _).
  { eapply Forall_impl; [exact Hbefore|]. intros c' Hc' Hsel'.
    by apply add_pages_case_doc, Hc'. }
  assert (Hsplit : split_pdf lib p (before ++ c :: after) w2
                   = (Raise (PyError (IndexError "Sequence index out of range")), w3)).
  { rewrite (split_pdf_reads lib p body pages) by done.
    rewrite split_cases_app, Hrun.
    by rewrite (split_cases_stops lib pages c after _ w3 Hsel Hbad). }
  assert (Hpnew : p ∉ new.*2).
  { intros Hin. apply Hfresh in Hin. congruence. }
  assert (Hp3 : fs w3 !! p = Some body) by (by rewrite Hkeep).
  exists new. eexists.
  unfold try_finally, try_except. unfold mbind at 1. unfold M_bind at 1. rewrite Hsplit.
  unfold mbind, M_bind, mret, M_ret, print, os_unlink. simpl. rewrite Hp3.
  split; [reflexivity|]. simpl.
  split; [by rewrite Hst3, <- Hst1|].
  split.
  { eapply Forall2_impl_elem; [exact Hpairs|]. intros c' [n q] Hin [Hn Hq].
    split; [done|]. simpl in *. rewrite lookup_delete_ne; [done|].
    intros <-. apply Hpnew. apply list_elem_of_fmap. by exists (n, p). }
  split; [done|].
  split.
  - intros q Hq. apply Hfresh in Hq. rewrite <- Hfs1.
    by apply (world_after_download_fresh R2_STATIC_BUCKET volume body w1 q).
  - intros q Hq. rewrite <- Hfs1.
    destruct (decide (q = p)) as [->|Hne].
    + rewrite lookup_delete_eq. symmetry. apply fresh_tmp_fresh.
    + rewrite lookup_delete_ne by done. rewrite Hkeep by done.
      subst w2. simpl. by rewrite lookup_insert_ne.
Qed.

Lemma process_volume_rejected_index_witness :
  ∃ (left_over : list (string * string)) (w' : World),
    process_volume Fixture.lib "static" "split" (Fixture.vol "a2d" "1" None)
      (Fixture.client "beyond") Fixture.world0
    = (Ok (Some ("Error processing volume " +:+ volume_folder (Fixture.vol "a2d" "1" None)
                 +:+ ": Sequence index out of range")), w')
    ∧ store w' = store Fixture.world0
    ∧ Forall2 (λ c np, np.1 = file_name c
                       ∧ fs w' !! np.2
                         = Some (pdf_write Fixture.lib
                                   (case_doc (String.list_ascii_of_string "abcde") c)))
              (selected [Fixture.case "0001-01" 1 2 "Harvard"]) left_over
    ∧ NoDup left_over.*2
    ∧ (∀ q, q ∈ left_over.*2 → fs Fixture.world0 !! q = None)
    ∧ (∀ q, q ∉ left_over.*2 → fs w' !! q = fs Fixture.world0 !! q).
Proof.
  apply (process_volume_rejected_index Fixture.lib "static" "split"
           (Fixture.vol "a2d" "1" None) (Fixture.client "beyond")
           [Fixture.case "0001-01" 1 2 "Harvard"] []
           (Fixture.case "0005-01" 5 7 "Harvard") "abcde"
           (String.list_ascii_of_string "abcde") Fixture.world0
           {| fs := ∅; store := ∅;
              trace := [EvGetObject "static" "a2d/1.zip";
                        EvGetObject "static" "a2d/1/CasesMetadata.json"] |}).
  - vm_compute. reflexivity.
  - reflexivity.
  - reflexivity.
  - constructor; [|constructor]. intros _. unfold indices_accepted, Fixture.case.
    simpl. lia.
  - discriminate.
  - unfold indices_accepted, Fixture.case. simpl. lia.
Defined.

(** X14: once the source PDF is downloaded, [process_volume] returns a
    status message whatever happens while splitting and uploading (a
    source that is not a PDF, a bad page index, a failed write, a case
    file that has vanished), and the temporary source PDF is removed before
    it returns. *)
Theorem process_volume_returns_status_once_downloaded {Page} (lib : PyLib Page)
    (R2_STATIC_BUCKET R2_SPLIT_PDFS_BUCKET : string) (volume : Volume)
    (s3_client : S3Client) (cases_metadata : list CaseRecord) (body : string)
    (w w1 : World) :
  get_cases_metadata lib s3_client (READ_BUCKET R2_STATIC_BUCKET) volume w
  = (Ok (Some cases_metadata), w1) →
  ¬ Forall (λ c, provenance_source c = "Fastcase") cases_metadata →
  download_body s3_client (READ_BUCKET R2_STATIC_BUCKET) (pdf_key volume) = Ok body →
  ∃ (status : string) (w' : World),
    process_volume lib R2_STATIC_BUCKET R2_SPLIT_PDFS_BUCKET volume s3_client w
    = (Ok (Some status), w')
    ∧ fs w' !! fresh_tmp ".pdf" (fs w1) = None
    ∧ EvUnlink (fresh_tmp ".pdf" (fs w1)) ∈ trace w'.
Proof.
  intros Hload Hsome Hdown.
  by apply (process_volume_after_download lib R2_STATIC_BUCKET R2_SPLIT_PDFS_BUCKET
              volume s3_client cases_metadata body).
Qed.

Lemma process_volume_returns_status_once_downloaded_witness :
  ∃ (status : string) (w' : World),
    process_volume Fixture.lib "static" "split" (Fixture.vol "a2d" "1" None)
      (Fixture.client "beyond") Fixture.world0
    = (Ok (Some status), w')
    ∧ fs w' !! fresh_tmp ".pdf" ∅ = None
    ∧ EvUnlink (fresh_tmp ".pdf" ∅) ∈ trace w'.
Proof.
  apply (process_volume_returns_status_once_downloaded Fixture.lib "static" "split"
           (Fixture.vol "a2d" "1" None) (Fixture.client "beyond")
           [Fixture.case "0001-01" 1 2 "Harvard"; Fixture.case "0005-01" 5 7 "Harvard"]
           "abcde" Fixture.world0
           {| fs := ∅; store := ∅;
              trace := [EvGetObject "static" "a2d/1.zip";
                        EvGetObject "static" "a2d/1/CasesMetadata.json"] |}).
  - vm_compute. reflexivity.
  - intros Hall. apply Forall_cons in Hall as [Hc _]. discriminate.
  - reflexivity.
Defined.



(** ** More on the case metadata loader *)

Lemma substring_whole (s : string) : String.substring 0 (String.length s) s = s.
Proof. induction s as [|c s IH]; simpl; [done|by rewrite IH]. Qed.

Lemma substring_skip (pre s : string) (m : nat) :
  String.substring (String.length pre) m (pre +:+ s) = String.substring 0 m s.
Proof. induction pre as [|c pre IH]; simpl; [done|apply IH]. Qed.

Lemma substring_split (s : string) :
  ∀ a, (a ≤ String.length s)%nat →
       s = String.substring 0 a s +:+ String.substring a (String.length s - a) s.
Proof.
  induction s as [|c s IH]; intros [|a] Ha; simpl in *; try done; try lia.
  - by rewrite substring_whole.
  - change (String c s = String c (String.substring 0 a s
                                   +:+ String.substring a (String.length s - a) s)).
    f_equal. apply IH. lia.
Qed.

Lemma str_endswith_app (pre suffix : string) : str_endswith (pre +:+ suffix) suffix = true.
Proof.
  unfold str_endswith. rewrite string_length_app.
  rewrite bool_decide_eq_true_2 by lia.
  replace (String.length pre + String.length suffix - String.length suffix)%nat
    with (String.length pre) by lia.
  rewrite substring_skip, substring_whole. by rewrite bool_decide_eq_true_2.
Qed.

Lemma str_endswith_inv (s suffix : string) :
  str_endswith s suffix = true → ∃ pre, s = pre +:+ suffix.
Proof.
  unfold str_endswith. intros [Hlen Hsub]%andb_true_iff.
  apply bool_decide_eq_true in Hlen. apply bool_decide_eq_true in Hsub.
  exists (String.substring 0 (String.length s - String.length suffix) s).
  remember (String.length suffix) as k eqn:Hk. clear Hk. subst suffix.
  pose proof (substring_split s (String.length s - k)) as Hsplit.
  replace (String.length s - (String.length s - k))%nat with k in Hsplit by lia.
  apply Hsplit. lia.
Qed.

Lemma find_first_match {A} (f : A → bool) (skipped later : list A) (x : A) :
  Forall (λ y, f y = false) skipped → f x = true →
  find f (skipped ++ x :: later) = Some x.
Proof.
  induction 1 as [|y skipped Hy _ IH]; intros Hx; simpl.
  - by rewrite Hx.
  - rewrite Hy. by apply IH.
Qed.

(** X16: the loader only reads: whatever it finds, the local disk and the
    written objects are untouched, it makes one or two [get_object] calls
    and no other storage call, and everything else it does is console
    output. *)
Theorem get_cases_metadata_only_reads {Page} (lib : PyLib Page)
    (s3_client : S3Client) (bucket : string) (volume : Volume) (w : World) :
  fs (get_cases_metadata lib s3_client bucket volume w).2 = fs w
  ∧ store (get_cases_metadata lib s3_client bucket volume w).2 = store w
  ∧ ∃ events,
      trace (get_cases_metadata lib s3_client bucket volume w).2 = trace w ++ events
      ∧ Forall is_metadata_event events
      ∧ (1 ≤ length (fetches events) ≤ 2)%nat.
Proof.
  destruct (get_cases_metadata_run lib s3_client bucket volume w)
    as (events & -> & Hfetch & Hev).
  simpl. split; [done|]. split; [done|]. exists events.
  split; [done|]. split; [done|].
  rewrite Hfetch. unfold load_fetches_spec.
  destruct (get_object s3_client bucket (packed_key volume)) as [body|[]]; simpl; lia.
Qed.

(** X17: the metadata entry of an archive is chosen by the end of its
    name alone: the first name in the archive's order that ends with
    "CasesMetadata.json", whatever stands before that suffix and whatever
    entries follow, is the one that is opened and parsed. *)
Theorem get_cases_metadata_first_name_with_suffix {Page} (lib : PyLib Page)
    (s3_client : S3Client) (bucket : string) (volume : Volume) (body : string)
    (archive : ZipFile) (skipped later : list string) (pre : string) (w : World) :
  get_object s3_client bucket (packed_key volume) = Ok body →
  zip_decode lib body = Ok archive →
  namelist archive = skipped ++ (pre +:+ "CasesMetadata.json") :: later →
  Forall (λ name, ¬ ∃ pre', name = pre' +:+ "CasesMetadata.json") skipped →
  (get_cases_metadata lib s3_client bucket volume w).1
  = Ok match zip_open archive (pre +:+ "CasesMetadata.json") with
       | Ok entry => present (json_load lib entry)
       | Raise _ => None
       end.
Proof.
  intros Hget Hzip Hnames Hskipped.
  destruct (get_cases_metadata_run lib s3_client bucket volume w) as (events & -> & _).
  simpl. f_equal. unfold load_spec. rewrite Hget, Hzip. unfold packed_metadata.
  rewrite Hnames, (find_first_match _ skipped later (pre +:+ "CasesMetadata.json")).
  - done.
  - eapply Forall_impl; [exact Hskipped|]. intros name Hname.
    destruct (str_endswith name "CasesMetadata.json") eqn:Hend; [|done].
    destruct Hname. by apply str_endswith_inv.
  - apply str_endswith_app.
Qed.

Lemma get_cases_metadata_first_name_with_suffix_witness :
  (get_cases_metadata Fixture.lib
     {| get_object := λ _ _, Ok "zip:one-case";
        download_body := download_body (Fixture.client "");
        upload_error := upload_error (Fixture.client "") |}
     "static" (Fixture.vol "a2d" "1" None) Fixture.world0).1
  = Ok match zip_open {| namelist := ["a2d/1/"; "a2d/1/CasesMetadata.json"];
                         zip_open name :=
                           if bool_decide (name = "a2d/1/CasesMetadata.json")
                           then Ok "one-case"
                           else Raise (OtherError
                                         "There is no item named that in the archive") |}
                      ("a2d/1/" +:+ "CasesMetadata.json") with
       | Ok entry => present (json_load Fixture.lib entry)
       | Raise _ => None
       end.
Proof.
  apply (get_cases_metadata_first_name_with_suffix Fixture.lib _ "static"
           (Fixture.vol "a2d" "1" None) "zip:one-case" _ ["a2d/1/"] [] "a2d/1/"
           Fixture.world0).
  - reflexivity.
  - reflexivity.
  - reflexivity.
  - constructor; [|constructor]. intros [pre' Hpre].
    apply (f_equal String.length) in Hpre. rewrite string_length_app in Hpre.
    simpl in Hpre. lia.
Defined.

(** ** More on the metadata resolver *)

(** X18: a non-empty year selector that [int] rejects makes the resolver
    raise [int]'s exception only if some catalog record passes the
    reporter and volume filters; if none does, [int] is never called and
    the resolver returns the empty list. *)
Theorem get_volumes_to_process_year_not_an_integer {Page} (lib : PyLib Page)
    (get_volumes_metadata : string → Result Exc string)
    (reporter volume : option string) (y r2_bucket body : string)
    (catalog : list Volume) (e : PyExc) (w : World) :
  ¬ (opt_truthy volume = true ∧ reporter = None) →
  get_volumes_metadata r2_bucket = Ok body →
  json_loads_volumes lib body = Ok catalog →
  str_truthy y = true →
  py_int lib y = Raise e →
  get_volumes_to_process lib get_volumes_metadata reporter volume (Some y) r2_bucket w
  = (match resolve_spec lib reporter volume None catalog with
     | [] => Ok []
     | _ :: _ => Raise (PyError e)
     end, w).
Proof.
  intros Hguard Hget Hjson Hy Hint.
  unfold get_volumes_to_process.
  destruct (opt_truthy volume && bool_decide (reporter = None)) eqn:Hg.
  { apply andb_true_iff in Hg as [Hv Hr%bool_decide_eq_true]. by destruct Hguard. }
  step. rewrite Hget, Hjson. simpl.
  rewrite (filter_selector reporter (λ v r, reporter_slug v = r)).
  rewrite (filter_selector volume (λ v f, volume_folder v = f)).
  rewrite Hy.
  set (l := filter _ (filter _ catalog)).
  assert (Hspec : resolve_spec lib reporter volume None catalog = l).
  { unfold resolve_spec, l. rewrite !list_filter_filter. apply list_filter_iff.
    intros v. unfold selects. simpl. tauto. }
  rewrite Hspec. destruct l as [|v l']; simpl; [done|]. by rewrite Hint.
Qed.

Lemma get_volumes_to_process_year_not_an_integer_witness :
  get_volumes_to_process Fixture.lib Fixture.get_volumes_metadata
    (Some "ga") None (Some "199x") "static" Fixture.world0
  = (match resolve_spec Fixture.lib (Some "ga") None None Fixture.catalog with
     | [] => Ok []
     | _ :: _ => Raise (PyError (ValueError
                                   ("invalid literal for int() with base 10: " +:+ "199x")))
     end, Fixture.world0).
Proof.
  apply (get_volumes_to_process_year_not_an_integer Fixture.lib
           Fixture.get_volumes_metadata (Some "ga") None "199x" "static" "catalog"
           Fixture.catalog _ Fixture.world0).
  - intros [Hv _]. simpl in Hv. discriminate.
  - reflexivity.
  - reflexivity.
  - reflexivity.
  - reflexivity.
Defined.
